(** * KeyCL: the keyclsound generator (src/keyclsound-generator.pyw)

    A shallow embedding of the generator script and of the descriptor codec
    it contains.  Python values are modelled as follows.

    - [str] is a list of Unicode code points ([N]); this is what [strip],
      [endswith], [split] and [join] work on, and it lets the whitespace
      table of [str.strip] be written out in full.
    - [int] is [Z].
    - The Tk widgets, the module globals, the working directory, the dialogs
      shown so far and the collaborators (HTTP, random source, file
      permissions) are the fields of one record, [world], which every
      function of the script receives and returns (a state and exception
      monad [M]). *)

From Stdlib Require Import String Ascii ZArith NArith List Lia Bool.
From stdpp Require Import base option list gmap.

Local Open Scope N_scope.

(** ** Python strings *)

Module Py.

Definition char := N.
Definition str := list N.

(** A literal of the source, as code points (the literals used are ASCII). *)
Definition lit (s : string) : str :=
  map N_of_ascii (list_ascii_of_string s).

Definition NL : char := 10.

Definition eqb (a b : str) : bool := bool_decide (a = b).

(** [str.isspace] on one code point: the characters [str.strip()] removes. *)
Definition isspace (c : char) : bool :=
  ((0x09 <=? c) && (c <=? 0x0D)) || ((0x1C <=? c) && (c <=? 0x20))
  || (c =? 0x85) || (c =? 0xA0) || (c =? 0x1680)
  || ((0x2000 <=? c) && (c <=? 0x200A))
  || (c =? 0x2028) || (c =? 0x2029) || (c =? 0x202F) || (c =? 0x205F)
  || (c =? 0x3000).

Fixpoint lstrip (s : str) : str :=
  match s with
  | [] => []
  | c :: s' => if isspace c then lstrip s' else s
  end.

Definition rstrip (s : str) : str := rev (lstrip (rev s)).

(** [s.strip()] *)
Definition strip (s : str) : str := lstrip (rstrip s).

(** [s.endswith(suffix)] *)
Definition endswith (s suffix : str) : bool :=
  (length suffix <=? length s)%nat
  && eqb (skipn (length s - length suffix) s) suffix.

(** [s.endswith((a, b, ...))]: true as soon as one suffix matches. *)
Definition endswith_any (s : str) (suffixes : list str) : bool :=
  existsb (endswith s) suffixes.

(** [s.split(sep)] for a one-character separator: never the empty list. *)
Fixpoint split (sep : char) (s : str) : list str :=
  match s with
  | [] => [[]]
  | c :: s' =>
      if c =? sep then [] :: split sep s'
      else match split sep s' with
           | [] => [[c]]
           | w :: ws => (c :: w) :: ws
           end
  end.

(** [sep.join(parts)] *)
Fixpoint join (sep : str) (parts : list str) : str :=
  match parts with
  | [] => []
  | [w] => w
  | w :: ws => w ++ sep ++ join sep ws
  end.

(** [xs[:-1]] *)
Definition but_last {A} (xs : list A) : list A := removelast xs.

(** Decimal digits of a natural number, most significant first.  The fuel
    bounds the number of digits; [str_N] passes the bit length plus one. *)
Fixpoint dec_digits (fuel : nat) (n : N) (acc : str) : str :=
  match fuel with
  | O => acc
  | S fuel' =>
      let acc' := (48 + n mod 10) :: acc in
      if n / 10 =? 0 then acc' else dec_digits fuel' (n / 10) acc'
  end.

Definition str_N (n : N) : str := dec_digits (S (N.size_nat n)) n [].

(** [str(i)] for an [int], as an f-string renders [{i}]. *)
Definition str_int (i : Z) : str :=
  match i with
  | Z0 => str_N 0
  | Zpos p => str_N (Npos p)
  | Zneg p => 45 :: str_N (Npos p)
  end.

Definition isdigit (c : char) : bool := (48 <=? c) && (c <=? 57).

End Py.

Arguments Py.lit : simpl never.

(** ** Values exchanged with the collaborators *)

(** The exceptions the script can meet; all are subclasses of [Exception]. *)
Inductive exn :=
| IndexError
| OSError
| UnicodeEncodeError
| RequestException
| JSONDecodeError.

(** One element of a directory listing, as the listing service documents it:
    the script reads [item['name']], [item['type']], [item['path']] and
    [item['download_url']].  The listing is taken to keep to that interface:
    a body that is JSON is a list of objects that carry the four keys with
    strings as values.  On a body that breaks it (an object instead of a
    list, an element without one of the keys) the script raises [TypeError]
    or [KeyError] where it reads the element; such bodies are not values of
    this type, and the properties below that depend on the elements are
    properties of listings that keep to the interface. *)
Record item := {
  item_name : Py.str;
  item_type : Py.str;
  item_path : Py.str;
  item_download_url : Py.str
}.

(** What [requests.get(url)] does: it raises, or it returns a response with a
    status code and a body; [response.json()] raises when the body is not
    JSON ([None]) and returns the listing otherwise. *)
Inductive http_result :=
| HttpRaises (e : exn)
| HttpResponse (status_code : Z) (json : option (list item)).

(** A call of [messagebox.showerror] or [messagebox.showinfo]. *)
Inductive dialog :=
| showerror (title message : Py.str)
| showinfo (title message : Py.str).

(** ** The world the script runs in *)

Record world := {
  (* module globals *)
  current_path : Py.str;
  selected_url : Py.str;                 (* tk.StringVar *)
  (* widgets *)
  title_entry : Py.str;
  author_entry : Py.str;
  desc_entry : Py.str;
  tags_entry : Py.str;
  manual_url_entry : Py.str;
  repo_label : Py.str;
  files_listbox : list Py.str;
  curselection : list nat;               (* files_listbox.curselection() *)
  listbox_select : option (list item);   (* items held by the bound handler *)
  (* effects *)
  files : gmap (list N) (list N);        (* working directory: name -> text *)
  dialogs : list dialog;                 (* message boxes shown, oldest first *)
  random_pos : nat;                      (* draws made so far *)
  (* collaborators, never written by the script *)
  random_source : nat -> Z;
  requests_get : Py.str -> http_result;
  open_denied : Py.str -> bool
}.

Definition set_current_path (v : Py.str) (w : world) : world :=
  {| current_path := v; selected_url := selected_url w;
     title_entry := title_entry w; author_entry := author_entry w;
     desc_entry := desc_entry w; tags_entry := tags_entry w;
     manual_url_entry := manual_url_entry w; repo_label := repo_label w;
     files_listbox := files_listbox w; curselection := curselection w;
     listbox_select := listbox_select w; files := files w;
     dialogs := dialogs w; random_pos := random_pos w;
     random_source := random_source w; requests_get := requests_get w;
     open_denied := open_denied w |}.

Definition set_selected_url (v : Py.str) (w : world) : world :=
  {| current_path := current_path w; selected_url := v;
     title_entry := title_entry w; author_entry := author_entry w;
     desc_entry := desc_entry w; tags_entry := tags_entry w;
     manual_url_entry := manual_url_entry w; repo_label := repo_label w;
     files_listbox := files_listbox w; curselection := curselection w;
     listbox_select := listbox_select w; files := files w;
     dialogs := dialogs w; random_pos := random_pos w;
     random_source := random_source w; requests_get := requests_get w;
     open_denied := open_denied w |}.

Definition set_manual_url_entry (v : Py.str) (w : world) : world :=
  {| current_path := current_path w; selected_url := selected_url w;
     title_entry := title_entry w; author_entry := author_entry w;
     desc_entry := desc_entry w; tags_entry := tags_entry w;
     manual_url_entry := v; repo_label := repo_label w;
     files_listbox := files_listbox w; curselection := curselection w;
     listbox_select := listbox_select w; files := files w;
     dialogs := dialogs w; random_pos := random_pos w;
     random_source := random_source w; requests_get := requests_get w;
     open_denied := open_denied w |}.

Definition set_repo_label (v : Py.str) (w : world) : world :=
  {| current_path := current_path w; selected_url := selected_url w;
     title_entry := title_entry w; author_entry := author_entry w;
     desc_entry := desc_entry w; tags_entry := tags_entry w;
     manual_url_entry := manual_url_entry w; repo_label := v;
     files_listbox := files_listbox w; curselection := curselection w;
     listbox_select := listbox_select w; files := files w;
     dialogs := dialogs w; random_pos := random_pos w;
     random_source := random_source w; requests_get := requests_get w;
     open_denied := open_denied w |}.

(** Replacing the rows of the list box; the selection is given with them. *)
Definition set_files_listbox (rows : list Py.str) (sel : list nat)
    (w : world) : world :=
  {| current_path := current_path w; selected_url := selected_url w;
     title_entry := title_entry w; author_entry := author_entry w;
     desc_entry := desc_entry w; tags_entry := tags_entry w;
     manual_url_entry := manual_url_entry w; repo_label := repo_label w;
     files_listbox := rows; curselection := sel;
     listbox_select := listbox_select w; files := files w;
     dialogs := dialogs w; random_pos := random_pos w;
     random_source := random_source w; requests_get := requests_get w;
     open_denied := open_denied w |}.

Definition set_listbox_select (v : option (list item)) (w : world) : world :=
  {| current_path := current_path w; selected_url := selected_url w;
     title_entry := title_entry w; author_entry := author_entry w;
     desc_entry := desc_entry w; tags_entry := tags_entry w;
     manual_url_entry := manual_url_entry w; repo_label := repo_label w;
     files_listbox := files_listbox w; curselection := curselection w;
     listbox_select := v; files := files w;
     dialogs := dialogs w; random_pos := random_pos w;
     random_source := random_source w; requests_get := requests_get w;
     open_denied := open_denied w |}.

Definition set_files (v : gmap (list N) (list N)) (w : world) : world :=
  {| current_path := current_path w; selected_url := selected_url w;
     title_entry := title_entry w; author_entry := author_entry w;
     desc_entry := desc_entry w; tags_entry := tags_entry w;
     manual_url_entry := manual_url_entry w; repo_label := repo_label w;
     files_listbox := files_listbox w; curselection := curselection w;
     listbox_select := listbox_select w; files := v;
     dialogs := dialogs w; random_pos := random_pos w;
     random_source := random_source w; requests_get := requests_get w;
     open_denied := open_denied w |}.

Definition set_dialogs (v : list dialog) (w : world) : world :=
  {| current_path := current_path w; selected_url := selected_url w;
     title_entry := title_entry w; author_entry := author_entry w;
     desc_entry := desc_entry w; tags_entry := tags_entry w;
     manual_url_entry := manual_url_entry w; repo_label := repo_label w;
     files_listbox := files_listbox w; curselection := curselection w;
     listbox_select := listbox_select w; files := files w;
     dialogs := v; random_pos := random_pos w;
     random_source := random_source w; requests_get := requests_get w;
     open_denied := open_denied w |}.

Definition set_random_pos (v : nat) (w : world) : world :=
  {| current_path := current_path w; selected_url := selected_url w;
     title_entry := title_entry w; author_entry := author_entry w;
     desc_entry := desc_entry w; tags_entry := tags_entry w;
     manual_url_entry := manual_url_entry w; repo_label := repo_label w;
     files_listbox := files_listbox w; curselection := curselection w;
     listbox_select := listbox_select w; files := files w;
     dialogs := dialogs w; random_pos := v;
     random_source := random_source w; requests_get := requests_get w;
     open_denied := open_denied w |}.

(** ** State and exception monad *)

Inductive outcome (A : Type) :=
| Ok (a : A)
| Raise (e : exn).
Arguments Ok {A} a.
Arguments Raise {A} e.

(** A computation returns or raises, and leaves a world behind either way:
    what was written before an exception stays written. *)
Definition M (A : Type) : Type := world -> outcome A * world.

Definition ret {A} (a : A) : M A := fun w => (Ok a, w).

Definition bind {A B} (m : M A) (k : A -> M B) : M B :=
  fun w => match m w with
           | (Ok a, w') => k a w'
           | (Raise e, w') => (Raise e, w')
           end.

Definition raise {A} (e : exn) : M A := fun w => (Raise e, w).

(** [try: body  except Exception: handler] *)
Definition try_except {A} (body : M A) (handler : M A) : M A :=
  fun w => match body w with
           | (Ok a, w') => (Ok a, w')
           | (Raise _, w') => handler w'
           end.

Definition get {A} (f : world -> A) : M A := fun w => (Ok (f w), w).
Definition modify (f : world -> world) : M unit := fun w => (Ok tt, f w).

Notation "'do' x <- m ; k" := (bind m (fun x => k))
  (at level 10, x name, m at level 100, k at level 200).
Notation "m ;; k" := (bind m (fun _ => k))
  (at level 100, k at level 200, right associativity).

(** [for x in xs: body(x)] *)
Fixpoint for_each {A} (xs : list A) (body : A -> M unit) : M unit :=
  match xs with
  | [] => ret tt
  | x :: xs' => body x ;; for_each xs' body
  end.

(** ** The script *)

Definition truthy (s : Py.str) : bool :=
  match s with [] => false | _ :: _ => true end.

(** [a or b] on strings *)
Definition py_or (a b : Py.str) : Py.str := if truthy a then a else b.

(** [(".mp3", ".wav", ".ogg")] *)
Definition audio_suffixes : list Py.str :=
  [Py.lit ".mp3"; Py.lit ".wav"; Py.lit ".ogg"].

(** [random.randint(a, b)]: the next value of the random source, brought into
    [a..b]; every value of the range is the image of some source value. *)
Definition randint (a b : Z) : M Z :=
  fun w =>
    let raw := random_source w (random_pos w) in
    (Ok (a + raw mod (b - a + 1))%Z, set_random_pos (S (random_pos w)) w).

Definition generate_random_filename : M Py.str :=
  do r <- randint 10000000 99999999;
  ret (Py.str_int r ++ Py.lit ".keyclsound").

Definition BASE_API_URL : Py.str :=
  Py.lit "https://api.github.com/repos/OptionallyBlueStudios/KeyCL/contents".

(** [requests.get(api_url)] *)
Definition http_get (api_url : Py.str) : M (Z * option (list item)) :=
  fun w => match requests_get w api_url with
           | HttpRaises e => (Raise e, w)
           | HttpResponse status_code json => (Ok (status_code, json), w)
           end.

(** [response.json()] *)
Definition response_json (response : Z * option (list item)) : M (list item) :=
  match snd response with
  | Some body => ret body
  | None => raise JSONDecodeError
  end.

(** The address [fetch_repo_contents] asks for. *)
Definition api_url (path : Py.str) : Py.str :=
  if truthy path then BASE_API_URL ++ Py.lit "/" ++ path else BASE_API_URL.

Definition fetch_repo_contents (path : Py.str) : M (list item) :=
  try_except
    (do response <- http_get (api_url path);
     if (fst response =? 200)%Z then response_json response
     else ret [])
    (ret []).

(** UTF-8 cannot encode the surrogate code points. *)
Definition utf8_encodable (s : Py.str) : bool :=
  forallb (fun c => negb ((0xD800 <=? c) && (c <=? 0xDFFF))) s.

(** [open(filename, "w", encoding="utf-8")]: creates the file or empties an
    existing one; raises when the system denies it. *)
Definition open_w (filename : Py.str) : M unit :=
  fun w =>
    if open_denied w filename then (Raise OSError, w)
    else (Ok tt, set_files (<[filename := []]> (files w)) w).

(** [f.write(data)] on the file just opened, and the close of the [with]. *)
Definition file_write (filename data : Py.str) : M unit :=
  fun w =>
    if utf8_encodable data
    then (Ok tt, set_files (<[filename := data]> (files w)) w)
    else (Raise UnicodeEncodeError, w).

Definition save_keyclsound (data : Py.str) : M Py.str :=
  do filename <- generate_random_filename;
  open_w filename ;;
  file_write filename data ;;
  ret filename.

Definition messagebox_showerror (title message : string) : M unit :=
  modify (fun w =>
    set_dialogs (dialogs w ++ [showerror (Py.lit title) (Py.lit message)]) w).

Definition messagebox_showinfo (title : string) (message : Py.str) : M unit :=
  modify (fun w =>
    set_dialogs (dialogs w ++ [showinfo (Py.lit title) message]) w).

(** [files_listbox.insert(tk.END, row)] *)
Definition listbox_insert_end (row : Py.str) : M unit :=
  modify (fun w => set_files_listbox (files_listbox w ++ [row]) (curselection w) w).

Definition load_repo (path : Py.str) : M unit :=
  modify (set_current_path path) ;;
  modify (set_repo_label
            (if truthy path then Py.lit "Browsing: /" ++ path
             else Py.lit "Browsing: /")) ;;
  do items <- fetch_repo_contents path;
  modify (set_files_listbox [] []) ;;
  (if truthy path then listbox_insert_end (Py.lit "[..]") else ret tt) ;;
  for_each items (fun item =>
    let prefix :=
      if Py.eqb (item_type item) (Py.lit "dir") then [0x1F4C1; 0x20]
      else if Py.eqb (item_type item) (Py.lit "file")
              && Py.endswith_any (item_name item) audio_suffixes
           then [0x1F3B5; 0x20]
           else [0x1F4C4; 0x20] in
    listbox_insert_end (prefix ++ item_name item)) ;;
  modify (set_listbox_select (Some items)).

(** [items[i]] *)
Definition list_index {A} (xs : list A) (i : nat) : M A :=
  match xs !! i with
  | Some x => ret x
  | None => raise IndexError
  end.

Definition select_item (items : list item) : M unit :=
  do selection <- get curselection;
  match selection with
  | [] => ret tt
  | idx :: _ =>
      do cur <- get current_path;
      if truthy cur && (idx =? 0)%nat then
        let parent := Py.join (Py.lit "/") (Py.but_last (Py.split 0x2F cur)) in
        load_repo parent
      else
        do item <- list_index items (if negb (truthy cur) then idx else idx - 1);
        if Py.eqb (item_type item) (Py.lit "dir") then
          load_repo (item_path item)
        else if Py.eqb (item_type item) (Py.lit "file") then
          if Py.endswith_any (item_name item) audio_suffixes then
            modify (set_selected_url (item_download_url item)) ;;
            modify (set_manual_url_entry []) ;;
            do url <- get selected_url;
            modify (fun w => set_manual_url_entry (url ++ manual_url_entry w) w)
          else
            messagebox_showinfo "Info"
              (Py.lit "Only .mp3, .wav, or .ogg can be selected for KeyCL.")
        else ret tt
  end.

(** The handler bound to [<<ListboxSelect>>] by the last [load_repo]. *)
Definition on_listbox_select : M unit :=
  do handler <- get listbox_select;
  match handler with
  | Some items => select_item items
  | None => ret tt
  end.

Definition generate_file : M unit :=
  do final_url <- get (fun w => Py.strip (manual_url_entry w));
  do author <- get (fun w => Py.strip (author_entry w));
  do tags <- get (fun w => Py.strip (tags_entry w));
  if negb (truthy author) || negb (truthy tags) || negb (truthy final_url) then
    messagebox_showerror "Error" "Author, Tags, and URL are required!"
  else if negb (Py.endswith_any final_url audio_suffixes) then
    messagebox_showerror "Error" "URL must end with .mp3, .wav, or .ogg"
  else
    do title <- get (fun w => Py.strip (title_entry w));
    do desc <- get (fun w => Py.strip (desc_entry w));
    let data :=
      Py.lit "title: " ++ py_or title (Py.lit "Untitled Song") ++ [Py.NL]
      ++ Py.lit "author: " ++ author ++ [Py.NL]
      ++ Py.lit "description: " ++ desc ++ [Py.NL]
      ++ Py.lit "tags: " ++ tags ++ [Py.NL]
      ++ Py.lit "url: " ++ final_url ++ [Py.NL] in
    do filename <- save_keyclsound data;
    messagebox_showinfo "Success" (Py.lit "Saved as " ++ filename).

(** ** The descriptor codec *)

Record descriptor := {
  title : Py.str;
  author : Py.str;
  description : Py.str;
  tags : Py.str;
  url : Py.str
}.

Inductive validation :=
| Valid (d : descriptor)
| ValidationError (message : string).

(** The checks and the normalisation that [generate_file] applies to the
    texts of the five entries (lines 144-160), as one function of them. *)
Definition validate (t a d g u : Py.str) : validation :=
  let final_url := Py.strip u in
  if negb (truthy (Py.strip a)) || negb (truthy (Py.strip g))
     || negb (truthy final_url)
  then ValidationError "Author, Tags, and URL are required!"
  else if negb (Py.endswith_any final_url audio_suffixes)
  then ValidationError "URL must end with .mp3, .wav, or .ogg"
  else Valid {| title := py_or (Py.strip t) (Py.lit "Untitled Song");
                author := Py.strip a;
                description := Py.strip d;
                tags := Py.strip g;
                url := final_url |}.

(** The f-string block of [generate_file] (lines 154-160). *)
Definition encode (d : descriptor) : Py.str :=
  Py.lit "title: " ++ title d ++ [Py.NL]
  ++ Py.lit "author: " ++ author d ++ [Py.NL]
  ++ Py.lit "description: " ++ description d ++ [Py.NL]
  ++ Py.lit "tags: " ++ tags d ++ [Py.NL]
  ++ Py.lit "url: " ++ url d ++ [Py.NL].

(** A string is blank when trimming leaves nothing. *)
Definition blank (s : Py.str) : bool := negb (truthy (Py.strip s)).

(** The descriptors the data model calls well-formed, with a title. *)
Definition well_formed (d : descriptor) : Prop :=
  blank (title d) = false /\ blank (author d) = false
  /\ blank (tags d) = false /\ blank (url d) = false
  /\ Py.endswith_any (url d) audio_suffixes = true.

Definition no_line_break (s : Py.str) : Prop := Py.NL ∉ s.

(** *** Reading a descriptor back *)

Inductive decoded :=
| Decoded (d : descriptor)
| ParseError.

(** Modelled from the spec: the lines of a descriptor text.  The reader of
    keyclsound files is not part of the generator script.  Each line ends at
    a line feed; a last line needs no line feed after it (section 6: no
    trailing blank line required). *)
Fixpoint split_lines (text : Py.str) : list Py.str :=
  match text with
  | [] => []
  | c :: text' =>
      if c =? Py.NL then [] :: split_lines text'
      else match split_lines text' with
           | [] => [[c]]
           | l :: ls => (c :: l) :: ls
           end
  end.

(** Modelled from the spec: one line against the pattern [key: value], the
    key ending at the first colon that a space follows (section 6). *)
Fixpoint parse_line (line : Py.str) : option (Py.str * Py.str) :=
  match line with
  | [] => None
  | c :: rest =>
      match c =? 0x3A, rest with
      | true, 0x20 :: value => Some ([], value)
      | _, _ =>
          match parse_line rest with
          | Some (key, value) => Some (c :: key, value)
          | None => None
          end
      end
  end.

(** Modelled from the spec: every line must match the pattern (section 4.1:
    [ParseError] when a line does not match). *)
Fixpoint parse_lines (lines : list Py.str) : option (list (Py.str * Py.str)) :=
  match lines with
  | [] => Some []
  | l :: ls =>
      match parse_line l, parse_lines ls with
      | Some kv, Some kvs => Some (kv :: kvs)
      | _, _ => None
      end
  end.

(** Modelled from the spec: the value of a key among the pairs read, the
    first one when the key is repeated (the specification leaves the choice
    open; the texts [encode] produces from one-line fields never repeat a
    key). *)
Fixpoint find_key (key : Py.str) (pairs : list (Py.str * Py.str))
    : option Py.str :=
  match pairs with
  | [] => None
  | (k, v) :: pairs' => if Py.eqb k key then Some v else find_key key pairs'
  end.

(** Modelled from the spec: [decode] (section 4.1), which the generator
    script does not contain.  It fails when a line does not match the
    pattern or when a required key ([author], [tags], [url]) is missing;
    keys it does not know are ignored; the optional fields take the defaults
    of the data model (section 3): [title] is "Untitled Song" when absent or
    blank, [description] is empty when absent. *)
Definition decode (text : Py.str) : decoded :=
  match parse_lines (split_lines text) with
  | None => ParseError
  | Some pairs =>
      match find_key (Py.lit "author") pairs,
            find_key (Py.lit "tags") pairs,
            find_key (Py.lit "url") pairs with
      | Some a, Some g, Some u =>
          Decoded
            {| title :=
                 match find_key (Py.lit "title") pairs with
                 | Some t => if blank t then Py.lit "Untitled Song" else t
                 | None => Py.lit "Untitled Song"
                 end;
               author := a;
               description :=
                 match find_key (Py.lit "description") pairs with
                 | Some d => d
                 | None => []
                 end;
               tags := g;
               url := u |}
      | _, _, _ => ParseError
      end
  end.

(** The file name pattern [^\d{8}\.keyclsound$]: eight decimal digits and
    the extension. *)
Definition keyclsound_name (s : Py.str) : Prop :=
  exists ds, length ds = 8%nat /\ Forall (fun c => Py.isdigit c = true) ds
             /\ s = ds ++ Py.lit ".keyclsound".

(** ** Notions used to state the properties *)

(** The name the next call of [generate_random_filename] returns. *)
Definition next_filename (w : world) : Py.str :=
  Py.str_int (10000000 + random_source w (random_pos w) mod 90000000)
  ++ Py.lit ".keyclsound".

(** [validate] on the texts the five entries hold. *)
Definition validate_entries (w : world) : validation :=
  validate (title_entry w) (author_entry w) (desc_entry w) (tags_entry w)
           (manual_url_entry w).

(** The element of the listing that [select_item] reads for the selected
    row: none without a selection, none for the "[..]" row. *)
Definition selected_item (items : list item) (w : world) : option item :=
  match curselection w with
  | [] => None
  | idx :: _ =>
      if truthy (current_path w) && (idx =? 0)%nat then None
      else items !! (if negb (truthy (current_path w)) then idx else idx - 1)%nat
  end.

(** The selected URL and the manual URL entry are the same in both worlds. *)
Definition same_url (w w' : world) : Prop :=
  selected_url w' = selected_url w
  /\ manual_url_entry w' = manual_url_entry w.

(** A computation that never touches the selected URL or the URL entry. *)
Definition keeps_url {A} (m : M A) : Prop :=
  forall w, same_url w (snd (m w)).

(** ** Sample values *)

(** A world where nothing has happened yet: empty entries, an empty working
    directory, a random source that always yields 0, no network. *)
Definition world0 : world :=
  {| current_path := []; selected_url := [];
     title_entry := []; author_entry := []; desc_entry := [];
     tags_entry := []; manual_url_entry := [];
     repo_label := Py.lit "Browsing: /";
     files_listbox := []; curselection := []; listbox_select := None;
     files := ∅; dialogs := []; random_pos := 0;
     random_source := fun _ => 0%Z;
     requests_get := fun _ => HttpRaises RequestException;
     open_denied := fun _ => false |}.

(** The same world with a file already under the name drawn next. *)
Definition world_taken : world :=
  set_files {[ Py.lit "10000000.keyclsound" := Py.lit "old" ]} world0.

(** The descriptor of the end-to-end example. *)
Definition quork : descriptor :=
  {| title := Py.lit "Quork";
     author := Py.lit "MyInstants";
     description := Py.lit "A funny quack sound";
     tags := Py.lit "duck,funny,quack";
     url := Py.lit "https://example.com/cannard.mp3" |}.

(** A listing with a text file and a sound. *)
Definition sample_items : list item :=
  [ {| item_name := Py.lit "README.md"; item_type := Py.lit "file";
       item_path := Py.lit "README.md";
       item_download_url := Py.lit "https://example.com/README.md" |};
    {| item_name := Py.lit "a.mp3"; item_type := Py.lit "file";
       item_path := Py.lit "a.mp3";
       item_download_url := Py.lit "https://example.com/a.mp3" |} ].

(** A world whose listing service serves [sample_items] at the root and
    answers 404 elsewhere; the root is shown and its first row selected. *)
Definition world_listing : world :=
  {| current_path := []; selected_url := [];
     title_entry := []; author_entry := []; desc_entry := [];
     tags_entry := []; manual_url_entry := Py.lit "typed by hand";
     repo_label := Py.lit "Browsing: /";
     files_listbox := [ [0x1F4C4; 0x20] ++ Py.lit "README.md";
                        [0x1F3B5; 0x20] ++ Py.lit "a.mp3" ];
     curselection := [0%nat]; listbox_select := Some sample_items;
     files := ∅; dialogs := []; random_pos := 0;
     random_source := fun _ => 0%Z;
     requests_get := fun u =>
       if Py.eqb u BASE_API_URL then HttpResponse 200 (Some sample_items)
       else HttpResponse 404 None;
     open_denied := fun _ => false |}.

(** The block of the end-to-end example, its five lines separated by line
    feeds, with nothing after the last line. *)
Definition quork_block : Py.str :=
  Py.lit "title: Quork" ++ [Py.NL]
  ++ Py.lit "author: MyInstants" ++ [Py.NL]
  ++ Py.lit "description: A funny quack sound" ++ [Py.NL]
  ++ Py.lit "tags: duck,funny,quack" ++ [Py.NL]
  ++ Py.lit "url: https://example.com/cannard.mp3".

(** A well-formed descriptor whose description has two paragraphs. *)
Definition two_paragraphs : descriptor :=
  {| title := Py.lit "T";
     author := Py.lit "A";
     description := Py.lit "a" ++ [Py.NL; Py.NL] ++ Py.lit "b";
     tags := Py.lit "t";
     url := Py.lit "x.mp3" |}.

(** Two well-formed descriptors with one and the same text: the line
    "author: b" belongs to the title of the first and opens the author of
    the second. *)
Definition ambiguous_a : descriptor :=
  {| title := Py.lit "a" ++ [Py.NL] ++ Py.lit "author: b";
     author := Py.lit "c";
     description := [];
     tags := Py.lit "t";
     url := Py.lit "x.mp3" |}.

Definition ambiguous_b : descriptor :=
  {| title := Py.lit "a";
     author := Py.lit "b" ++ [Py.NL] ++ Py.lit "author: c";
     description := [];
     tags := Py.lit "t";
     url := Py.lit "x.mp3" |}.

(** No field of the descriptor contains a line feed. *)
Definition single_line_fields (d : descriptor) : Prop :=
  no_line_break (title d) /\ no_line_break (author d)
  /\ no_line_break (description d) /\ no_line_break (tags d)
  /\ no_line_break (url d).

(** ** The preview *)

(** [preview_sound] talks to three more collaborators: the body of an HTTP
    response, the temporary directory and the pygame mixer.  They are the
    parameters of this section; each effectful one is a computation that may
    return or raise. *)
Section Preview.

Variable response_content : Py.str -> list N.
(** [NamedTemporaryFile(delete=False, suffix=...)], [write], [close]; the
    result is [tmpfile.name]. *)
Variable tempfile_write : Py.str -> list N -> M Py.str.
Variable music_load : Py.str -> M unit.
Variable music_play : M unit.
(** [str(e)], as the f-string renders the exception. *)
Variable exn_str : exn -> Py.str.

(** [try: body  except Exception as e: handler(e)] *)
Definition try_except_as {A} (body : M A) (handler : exn -> M A) : M A :=
  fun w => match body w with
           | (Ok a, w') => (Ok a, w')
           | (Raise e, w') => handler e w'
           end.

(** [xs[-1]] of a list of strings that [split] returned. *)
Definition last_piece (xs : list Py.str) : Py.str := List.last xs [].

(** The body of the [except] clause of [preview_sound]:
    [messagebox.showerror("Error", f"Preview failed: {e}")]. *)
Definition preview_failed (e : exn) : M unit :=
  modify (fun w =>
    set_dialogs
      (dialogs w
       ++ [showerror (Py.lit "Error") (Py.lit "Preview failed: " ++ exn_str e)])
      w).

Definition preview_sound : M unit :=
  do final_url <- get (fun w => Py.strip (manual_url_entry w));
  if negb (Py.endswith_any final_url audio_suffixes) then
    messagebox_showerror "Error" "Please select a valid sound file to preview."
  else
    try_except_as
      (do r <- http_get final_url;
       if (fst r =? 200)%Z then
         let ext := last_piece (Py.split 0x2E final_url) in
         do tmpfile_name <- tempfile_write (Py.lit "." ++ ext)
                              (response_content final_url);
         music_load tmpfile_name ;;
         music_play
       else
         messagebox_showerror "Error" "Failed to download sound.")
      preview_failed.

End Preview.

(** ** Further notions used to state the properties *)

(** The row [load_repo] shows for an element of the listing. *)
Definition row_of (it : item) : Py.str :=
  (if Py.eqb (item_type it) (Py.lit "dir") then [0x1F4C1; 0x20]
   else if Py.eqb (item_type it) (Py.lit "file")
           && Py.endswith_any (item_name it) audio_suffixes
        then [0x1F3B5; 0x20]
        else [0x1F4C4; 0x20]) ++ item_name it.

(** The listing the service gives for a path: the body of a 200 response. *)
Definition listing (path : Py.str) (w : world) : list item :=
  match requests_get w (api_url path) with
  | HttpResponse 200 (Some body) => body
  | _ => []
  end.

(** The rows [load_repo] leaves in the list box. *)
Definition rows_of (path : Py.str) (w : world) : list Py.str :=
  (if truthy path then [Py.lit "[..]"] else []) ++ map row_of (listing path w).

(** The user selects row [idx] of the list box. *)
Definition click (idx : nat) (w : world) : world :=
  set_files_listbox (files_listbox w) [idx] w.

(** The folder above: the expression [select_item] passes to [load_repo]
    for the "[..]" row. *)
Definition parent_of (cur : Py.str) : Py.str :=
  Py.join (Py.lit "/") (Py.but_last (Py.split 0x2F cur)).

(** The number a string of decimal digits stands for. *)
Definition digits_value (ds : Py.str) : N :=
  fold_left (fun acc c => 10 * acc + (c - 48)) ds 0.

(** The observations browsing has no business with: the files, the random
    source and the four metadata entries. *)
Record untouched_by_browsing (w w' : world) : Prop := {
  same_files : files w' = files w;
  same_random_pos : random_pos w' = random_pos w;
  same_title_entry : title_entry w' = title_entry w;
  same_author_entry : author_entry w' = author_entry w;
  same_desc_entry : desc_entry w' = desc_entry w;
  same_tags_entry : tags_entry w' = tags_entry w
}.

(** A world whose entries hold a valid descriptor, the url padded with
    blanks. *)
Definition world_filled : world :=
  {| current_path := []; selected_url := [];
     title_entry := Py.lit "Quork"; author_entry := Py.lit "MyInstants";
     desc_entry := []; tags_entry := Py.lit "duck";
     manual_url_entry := Py.lit " https://example.com/cannard.mp3 ";
     repo_label := Py.lit "Browsing: /";
     files_listbox := []; curselection := []; listbox_select := None;
     files := ∅; dialogs := []; random_pos := 0;
     random_source := fun n => Z.of_nat n;
     requests_get := fun _ => HttpResponse 404 None;
     open_denied := fun _ => false |}.

(** The world of the sample listing with an author and tags filled in; the
    URL entry still holds what was typed by hand. *)
Definition world_author : world :=
  {| current_path := []; selected_url := [];
     title_entry := []; author_entry := Py.lit "A"; desc_entry := [];
     tags_entry := Py.lit "t"; manual_url_entry := Py.lit "typed by hand";
     repo_label := Py.lit "Browsing: /";
     files_listbox := [ [0x1F4C4; 0x20] ++ Py.lit "README.md";
                        [0x1F3B5; 0x20] ++ Py.lit "a.mp3" ];
     curselection := []; listbox_select := Some sample_items;
     files := ∅; dialogs := []; random_pos := 0;
     random_source := fun _ => 0%Z;
     requests_get := fun u =>
       if Py.eqb u BASE_API_URL then HttpResponse 200 (Some sample_items)
       else HttpResponse 404 None;
     open_denied := fun _ => false |}.

(** A world where every write is denied, with valid entries. *)
Definition world_denied : world :=
  {| current_path := []; selected_url := [];
     title_entry := []; author_entry := Py.lit "A"; desc_entry := [];
     tags_entry := Py.lit "t"; manual_url_entry := Py.lit "x.ogg";
     repo_label := [];
     files_listbox := []; curselection := []; listbox_select := None;
     files := ∅; dialogs := []; random_pos := 0;
     random_source := fun _ => 0%Z;
     requests_get := fun _ => HttpRaises RequestException;
     open_denied := fun _ => true |}.

(** A folder of the listing of "sounds", and a world that shows it selected
    (row 0 is the "[..]" row). *)
Definition sample_folder : item :=
  {| item_name := Py.lit "ducks"; item_type := Py.lit "dir";
     item_path := Py.lit "sounds/ducks"; item_download_url := [] |}.

Definition world_in_sounds : world :=
  click 1 (set_current_path (Py.lit "sounds") world_listing).

(** A world whose URL entry names a sound that the network serves. *)
Definition world_sound : world :=
  {| current_path := []; selected_url := [];
     title_entry := []; author_entry := []; desc_entry := [];
     tags_entry := []; manual_url_entry := Py.lit "https://example.com/a.mp3";
     repo_label := [];
     files_listbox := []; curselection := []; listbox_select := None;
     files := ∅; dialogs := []; random_pos := 0;
     random_source := fun _ => 0%Z;
     requests_get := fun _ => HttpResponse 200 None;
     open_denied := fun _ => false |}.

(** Collaborators of the preview for the examples: an empty body, a
    temporary file named after its suffix, a mixer that accepts anything. *)
Definition sample_content (u : Py.str) : list N := [].
Definition sample_tempfile (suffix : Py.str) (body : list N) : M Py.str :=
  ret (Py.lit "/tmp/tmp0" ++ suffix).
Definition sample_load (name : Py.str) : M unit := ret tt.
Definition sample_play : M unit := ret tt.
Definition sample_exn_str (e : exn) : Py.str := Py.lit "error".

(** * Properties *)

(** ** Python strings *)

Section PyFacts.

Lemma endswith_spec (s suffix : Py.str) :
  Py.endswith s suffix = true <-> suffix `suffix_of` s.
Proof.
  unfold Py.endswith, Py.eqb.
  rewrite andb_true_iff, Nat.leb_le, bool_decide_eq_true. split.
  - intros [_ Heq]. exists (take (length s - length suffix) s).
    transitivity (take (length s - length suffix) s
                  ++ drop (length s - length suffix) s).
    + symmetry. apply take_drop.
    + f_equal. exact Heq.
  - intros [k ->]. rewrite length_app. split; [lia|].
    replace (length k + length suffix - length suffix)%nat with (length k)
      by lia.
    apply drop_app_length.
Qed.

Lemma endswith_any_spec (s : Py.str) (suffixes : list Py.str) :
  Py.endswith_any s suffixes = true
  <-> exists suffix, suffix ∈ suffixes /\ suffix `suffix_of` s.
Proof.
  unfold Py.endswith_any. rewrite existsb_exists. split.
  - intros (x & Hin & Hx). exists x. split.
    + apply list_elem_of_In, Hin.
    + apply endswith_spec, Hx.
  - intros (x & Hin & Hx). exists x. split.
    + apply list_elem_of_In, Hin.
    + apply endswith_spec, Hx.
Qed.

Lemma truthy_false (s : Py.str) : truthy s = false <-> s = [].
Proof. destruct s; simpl; split; congruence. Qed.

Lemma blank_spec (s : Py.str) : blank s = true <-> Py.strip s = [].
Proof. unfold blank. rewrite negb_true_iff. apply truthy_false. Qed.

(** What [lstrip] returns is empty or starts with a character that is no
    white space. *)
Lemma lstrip_head (s : Py.str) :
  Py.lstrip s = []
  \/ exists c s', Py.lstrip s = c :: s' /\ Py.isspace c = false.
Proof.
  induction s as [|c s IH]; simpl; [left; reflexivity|].
  destruct (Py.isspace c) eqn:Hc; [exact IH|].
  right. exists c, s. auto.
Qed.

Lemma lstrip_idempotent (s : Py.str) : Py.lstrip (Py.lstrip s) = Py.lstrip s.
Proof.
  destruct (lstrip_head s) as [-> | (c & s' & -> & Hc)]; [reflexivity|].
  simpl. rewrite Hc. reflexivity.
Qed.

Lemma lstrip_snoc (s : list N) (c : N) :
  Py.isspace c = false -> Py.lstrip (s ++ [c]) = Py.lstrip s ++ [c].
Proof.
  intros Hc. induction s as [|x s IH]; simpl.
  - rewrite Hc. reflexivity.
  - destruct (Py.isspace x); [exact IH | reflexivity].
Qed.

Lemma rstrip_last (s : Py.str) :
  Py.rstrip s = []
  \/ exists s' c, Py.rstrip s = s' ++ [c] /\ Py.isspace c = false.
Proof.
  unfold Py.rstrip.
  destruct (lstrip_head (rev s)) as [-> | (c & s' & -> & Hc)];
    [left; reflexivity|].
  right. exists (rev s'), c. auto.
Qed.

(** Trimming a trimmed text changes nothing. *)
Lemma strip_idempotent (s : Py.str) : Py.strip (Py.strip s) = Py.strip s.
Proof.
  unfold Py.strip.
  destruct (rstrip_last s) as [-> | (r & c & -> & Hc)]; [reflexivity|].
  rewrite (lstrip_snoc r c Hc).
  assert (Hr : Py.rstrip (Py.lstrip r ++ [c]) = Py.lstrip r ++ [c]).
  { unfold Py.rstrip. rewrite rev_app_distr. simpl. rewrite Hc. simpl.
    rewrite rev_involutive. reflexivity. }
  rewrite Hr, (lstrip_snoc _ c Hc), lstrip_idempotent. reflexivity.
Qed.

Lemma blank_strip (s : Py.str) : blank (Py.strip s) = blank s.
Proof. unfold blank. rewrite strip_idempotent. reflexivity. Qed.

Lemma isdigit_low (n : N) : Py.isdigit (48 + n mod 10) = true.
Proof.
  unfold Py.isdigit.
  assert (n mod 10 < 10) by (apply N.mod_lt; lia).
  apply andb_true_iff.
  split; apply N.leb_le; generalize dependent (n mod 10); intros; lia.
Qed.

(** With fuel above the number of digits, [dec_digits] puts exactly the
    digits of [n] in front of the accumulator. *)
Lemma dec_digits_spec (k : nat) :
  forall (fuel : nat) (n : N) (acc : Py.str),
    (k < fuel)%nat ->
    (k = 0%nat \/ 10 ^ N.of_nat k <= n) ->
    n < 10 ^ N.of_nat (S k) ->
    exists ds, length ds = S k
               /\ Forall (fun c => Py.isdigit c = true) ds
               /\ Py.dec_digits fuel n acc = ds ++ acc.
Proof.
  induction k as [|k IH]; intros fuel n acc Hfuel Hlow Hhigh.
  - destruct fuel as [|fuel]; [lia|]. simpl.
    change (10 ^ N.of_nat 1) with 10 in Hhigh.
    rewrite (N.div_small n 10 Hhigh). simpl.
    exists [48 + n mod 10]. repeat split.
    constructor; [apply isdigit_low | constructor].
  - destruct fuel as [|fuel]; [lia|].
    destruct Hlow as [Hk | Hlow]; [discriminate|].
    rewrite Nat2N.inj_succ, N.pow_succ_r' in Hlow.
    rewrite (Nat2N.inj_succ (S k)), N.pow_succ_r' in Hhigh.
    assert (Hpos : 0 < 10 ^ N.of_nat k).
    { apply N.neq_0_lt_0, N.pow_nonzero. discriminate. }
    assert (Hq : 10 ^ N.of_nat k <= n / 10).
    { apply N.div_le_lower_bound; [discriminate | exact Hlow]. }
    assert (Hq' : n / 10 < 10 ^ N.of_nat (S k)).
    { apply N.Div0.div_lt_upper_bound. exact Hhigh. }
    simpl Py.dec_digits.
    destruct (N.eqb_spec (n / 10) 0) as [Hz | _]; [lia|].
    destruct (IH fuel (n / 10) ((48 + n mod 10) :: acc))
      as (ds & Hlen & Hdig & Heq); [lia | right; exact Hq | exact Hq' |].
    exists (ds ++ [48 + n mod 10]). split; [|split].
    + rewrite length_app, Hlen. simpl. lia.
    + apply Forall_app. split; [exact Hdig|].
      constructor; [apply isdigit_low | constructor].
    + rewrite Heq, <- app_assoc. reflexivity.
Qed.

(** Fuel above the number of digits is enough: more changes nothing. *)
Lemma dec_digits_fuel (k : nat) :
  forall (fuel fuel' : nat) (n : N) (acc : Py.str),
    (k < fuel)%nat -> (k < fuel')%nat ->
    n < 10 ^ N.of_nat (S k) ->
    Py.dec_digits fuel n acc = Py.dec_digits fuel' n acc.
Proof.
  induction k as [|k IH]; intros fuel fuel' n acc Hfuel Hfuel' Hhigh;
    (destruct fuel as [|fuel]; [lia|]); (destruct fuel' as [|fuel']; [lia|]);
    simpl.
  - change (10 ^ N.of_nat 1) with 10 in Hhigh.
    rewrite (N.div_small n 10 Hhigh). reflexivity.
  - destruct (n / 10 =? 0); [reflexivity|].
    apply IH; [lia | lia |].
    rewrite (Nat2N.inj_succ (S k)), N.pow_succ_r' in Hhigh.
    apply N.Div0.div_lt_upper_bound. exact Hhigh.
Qed.

Lemma pos_below_pow_size (p : positive) :
  N.pos p < 2 ^ N.of_nat (Pos.size_nat p).
Proof.
  induction p as [p IH | p IH |]; simpl Pos.size_nat;
    rewrite ?Nat2N.inj_succ, ?N.pow_succ_r'.
  - generalize dependent (2 ^ N.of_nat (Pos.size_nat p)). intros; lia.
  - generalize dependent (2 ^ N.of_nat (Pos.size_nat p)). intros; lia.
  - reflexivity.
Qed.

(** A positive number below [10 ^ m] has between 1 and [m] digits. *)
Lemma decimal_length (m : nat) :
  forall n, 0 < n -> n < 10 ^ N.of_nat m ->
    exists k, (k < m)%nat /\ 10 ^ N.of_nat k <= n /\ n < 10 ^ N.of_nat (S k).
Proof.
  induction m as [|m IH]; intros n Hpos Hlt.
  - change (10 ^ N.of_nat 0) with 1 in Hlt. lia.
  - destruct (N.lt_ge_cases n (10 ^ N.of_nat m)) as [Hsmall | Hbig].
    + destruct (IH n Hpos Hsmall) as (k & Hk & Hbounds).
      exists k. split; [lia | exact Hbounds].
    + exists m. split; [lia|]. split; assumption.
Qed.

(** [str_N] is total in effect: the fuel it passes always covers the digits
    of its argument, and any larger fuel gives the same string. *)
Lemma str_N_enough_fuel (n : N) :
  exists k ds,
    length ds = S k
    /\ Forall (fun c => Py.isdigit c = true) ds
    /\ Py.str_N n = ds
    /\ forall fuel, (k < fuel)%nat -> Py.dec_digits fuel n [] = ds.
Proof.
  assert (Hk : exists k, (k < S (N.size_nat n))%nat
                         /\ (k = 0%nat \/ 10 ^ N.of_nat k <= n)
                         /\ n < 10 ^ N.of_nat (S k)).
  { destruct n as [|p].
    - exists 0%nat. split; [simpl; lia|]. split; [left|]; reflexivity.
    - assert (Hsize : N.pos p < 10 ^ N.of_nat (Pos.size_nat p)).
      { eapply N.lt_le_trans; [apply pos_below_pow_size|].
        apply N.pow_le_mono_l. lia. }
      destruct (decimal_length _ (N.pos p) ltac:(lia) Hsize)
        as (k & Hlt & Hlow & Hhigh).
      exists k. simpl N.size_nat. split; [lia|]. split; [right|]; assumption. }
  destruct Hk as (k & Hfuel & Hlow & Hhigh).
  destruct (dec_digits_spec k _ n [] Hfuel Hlow Hhigh)
    as (ds & Hlen & Hdig & Heq).
  rewrite app_nil_r in Heq.
  exists k, ds. repeat split; try assumption.
  intros fuel Hf. rewrite <- Heq. unfold Py.str_N.
  apply (dec_digits_fuel k); assumption.
Qed.

(** [str(r)] has eight digits for every [r] the script can draw. *)
Lemma str_int_eight_digits (r : Z) :
  (10000000 <= r <= 99999999)%Z ->
  exists ds, length ds = 8%nat
             /\ Forall (fun c => Py.isdigit c = true) ds
             /\ Py.str_int r = ds.
Proof.
  intros Hr. destruct r as [|p|p]; try lia.
  unfold Py.str_int, Py.str_N.
  assert (Hlow : 10 ^ N.of_nat 7 <= N.pos p) by (simpl; lia).
  assert (Hhigh : N.pos p < 10 ^ N.of_nat 8) by (simpl; lia).
  assert (Hsize : (7 < S (N.size_nat (N.pos p)))%nat).
  { assert (Hmono := Pos.size_nat_monotone 9999999 p ltac:(lia)).
    change (Pos.size_nat 9999999) with 24%nat in Hmono.
    change (N.size_nat (N.pos p)) with (Pos.size_nat p). lia. }
  destruct (dec_digits_spec 7 _ (N.pos p) [] Hsize (or_intror Hlow) Hhigh)
    as (ds & Hlen & Hdig & Heq).
  exists ds. rewrite Heq, app_nil_r. auto.
Qed.

End PyFacts.

(** ** The monad *)

Section MonadFacts.

Context {A B : Type}.

Lemma bind_ok (m : M A) (k : A -> M B) (w w' : world) (a : A) :
  m w = (Ok a, w') -> bind m k w = k a w'.
Proof. intros H. unfold bind. rewrite H. reflexivity. Qed.

Lemma bind_raise (m : M A) (k : A -> M B) (w w' : world) (e : exn) :
  m w = (Raise e, w') -> bind m k w = (Raise e, w').
Proof. intros H. unfold bind. rewrite H. reflexivity. Qed.

End MonadFacts.

(** ** Frame rules for the two URL holders *)

Section Frame.

Lemma same_url_refl (w : world) : same_url w w.
Proof. split; reflexivity. Qed.

Lemma same_url_trans (w1 w2 w3 : world) :
  same_url w1 w2 -> same_url w2 w3 -> same_url w1 w3.
Proof. intros [H1 H2] [H3 H4]. split; congruence. Qed.

Lemma keeps_ret {A} (a : A) : keeps_url (ret a).
Proof. intros w. apply same_url_refl. Qed.

Lemma keeps_raise {A} (e : exn) : keeps_url (@raise A e).
Proof. intros w. apply same_url_refl. Qed.

Lemma keeps_get {A} (f : world -> A) : keeps_url (get f).
Proof. intros w. apply same_url_refl. Qed.

Lemma keeps_modify (f : world -> world) :
  (forall w, same_url w (f w)) -> keeps_url (modify f).
Proof. intros H w. apply H. Qed.

Lemma keeps_bind {A B} (m : M A) (k : A -> M B) :
  keeps_url m -> (forall a, keeps_url (k a)) -> keeps_url (bind m k).
Proof.
  intros Hm Hk w. unfold bind. specialize (Hm w).
  destruct (m w) as [[a | e] w1]; simpl in *.
  - eapply same_url_trans; [exact Hm | apply Hk].
  - exact Hm.
Qed.

Lemma keeps_try_except {A} (body handler : M A) :
  keeps_url body -> keeps_url handler -> keeps_url (try_except body handler).
Proof.
  intros Hb Hh w. unfold try_except. specialize (Hb w).
  destruct (body w) as [[a | e] w1]; simpl in *.
  - exact Hb.
  - eapply same_url_trans; [exact Hb | apply Hh].
Qed.

Lemma keeps_for_each {A} (xs : list A) (body : A -> M unit) :
  (forall x, keeps_url (body x)) -> keeps_url (for_each xs body).
Proof.
  intros Hbody. induction xs as [|x xs IH]; simpl.
  - apply keeps_ret.
  - apply keeps_bind; [apply Hbody | intros _; exact IH].
Qed.

Lemma keeps_http_get (u : Py.str) : keeps_url (http_get u).
Proof.
  intros w. unfold http_get.
  destruct (requests_get w u); apply same_url_refl.
Qed.

Lemma keeps_fetch_repo_contents (path : Py.str) :
  keeps_url (fetch_repo_contents path).
Proof.
  unfold fetch_repo_contents. apply keeps_try_except.
  - apply keeps_bind; [apply keeps_http_get|].
    intros [status json]. simpl.
    destruct (status =? 200)%Z; [|apply keeps_ret].
    unfold response_json. simpl.
    destruct json; [apply keeps_ret | apply keeps_raise].
  - apply keeps_ret.
Qed.

Lemma keeps_listbox_insert_end (row : Py.str) :
  keeps_url (listbox_insert_end row).
Proof. apply keeps_modify. intros w. split; reflexivity. Qed.

Lemma keeps_load_repo (path : Py.str) : keeps_url (load_repo path).
Proof.
  unfold load_repo.
  repeat first
    [ apply keeps_bind; [|intros ?]
    | apply keeps_fetch_repo_contents
    | apply keeps_for_each; intros ?
    | apply keeps_listbox_insert_end
    | apply keeps_ret
    | apply keeps_modify; intros ?; split; reflexivity
    | match goal with |- keeps_url (if ?c then _ else _) => destruct c end ].
Qed.

End Frame.

(** ** File names *)

Section Filenames.

Lemma randint_range (a b : Z) (w : world) :
  (a <= b)%Z ->
  exists r, randint a b w = (Ok r, set_random_pos (S (random_pos w)) w)
            /\ (a <= r <= b)%Z.
Proof.
  intros Hab. eexists. split; [reflexivity|].
  pose proof (Z.mod_pos_bound (random_source w (random_pos w)) (b - a + 1)
                ltac:(lia)) as Hm.
  generalize dependent (random_source w (random_pos w) mod (b - a + 1))%Z.
  intros; lia.
Qed.

(** Every value of the range is drawn for some value of the source. *)
Lemma randint_reaches (a b r : Z) (w : world) :
  (a <= r <= b)%Z ->
  random_source w (random_pos w) = (r - a)%Z ->
  fst (randint a b w) = Ok r.
Proof.
  intros Hr Hsrc. unfold randint. simpl. rewrite Hsrc.
  rewrite Z.mod_small by lia. f_equal. lia.
Qed.

Lemma generate_random_filename_next (w : world) :
  generate_random_filename w
  = (Ok (next_filename w), set_random_pos (S (random_pos w)) w).
Proof. reflexivity. Qed.

Lemma next_filename_pattern (w : world) : keyclsound_name (next_filename w).
Proof.
  unfold next_filename, keyclsound_name.
  pose proof (Z.mod_pos_bound (random_source w (random_pos w)) 90000000
                ltac:(lia)) as Hm.
  generalize dependent (random_source w (random_pos w) mod 90000000)%Z.
  intros m Hm.
  destruct (str_int_eight_digits (10000000 + m)) as (ds & Hlen & Hdig & Heq);
    [lia|].
  exists ds. rewrite Heq. auto.
Qed.

End Filenames.

(** C6. Whatever the random source yields, [generate_random_filename]
    returns (it never raises) a string made of exactly eight decimal digits
    followed by the extension ".keyclsound", that is, a string matching
    [^\d{8}\.keyclsound$]. *)
Theorem generate_random_filename_pattern (w : world) :
  exists s, fst (generate_random_filename w) = Ok s /\ keyclsound_name s.
Proof.
  exists (next_filename w). split.
  - rewrite generate_random_filename_next. reflexivity.
  - apply next_filename_pattern.
Qed.

(** ** The listing service *)

Section Fetch.

Lemma fetch_repo_contents_closed_form (path : Py.str) (w : world) :
  fetch_repo_contents path w
  = (Ok match requests_get w (api_url path) with
        | HttpResponse 200 (Some body) => body
        | _ => []
        end, w).
Proof.
  unfold fetch_repo_contents, try_except, bind, http_get.
  destruct (requests_get w (api_url path)) as [e | status json];
    [reflexivity|].
  simpl. destruct (Z.eqb_spec status 200) as [-> | Hne].
  - destruct json; reflexivity.
  - destruct status as [|p|p]; try reflexivity.
    assert (Hp : p <> 200%positive) by congruence.
    repeat (destruct p as [p|p|]; try reflexivity); congruence.
Qed.

End Fetch.

(** C9. [fetch_repo_contents] never raises and leaves the world as it was:
    it returns the empty list when the request raises, when the status is
    not 200 and when the body of a 200 response is not JSON; it returns the
    parsed body on status 200; a non-empty result can only be the body of a
    200 response. *)
Theorem fetch_repo_contents_never_raises (path : Py.str) (w : world) :
  (exists items, fetch_repo_contents path w = (Ok items, w))
  /\ (forall e, requests_get w (api_url path) = HttpRaises e ->
       fetch_repo_contents path w = (Ok [], w))
  /\ (forall status json,
       requests_get w (api_url path) = HttpResponse status json ->
       status <> 200%Z ->
       fetch_repo_contents path w = (Ok [], w))
  /\ (requests_get w (api_url path) = HttpResponse 200 None ->
       fetch_repo_contents path w = (Ok [], w))
  /\ (forall body,
       requests_get w (api_url path) = HttpResponse 200 (Some body) ->
       fetch_repo_contents path w = (Ok body, w))
  /\ (forall items,
       fetch_repo_contents path w = (Ok items, w) -> items <> [] ->
       requests_get w (api_url path) = HttpResponse 200 (Some items)).
Proof.
  rewrite fetch_repo_contents_closed_form.
  split; [eexists; reflexivity|].
  split; [intros e ->; reflexivity|].
  split.
  { intros status json -> Hne.
    destruct status as [|p|p]; try reflexivity.
    assert (Hp : p <> 200%positive) by congruence.
    repeat (destruct p as [p|p|]; try reflexivity); congruence. }
  split; [intros ->; reflexivity|].
  split; [intros body ->; reflexivity|].
  intros items Heq Hne.
  destruct (requests_get w (api_url path)) as [e | status json].
  - congruence.
  - destruct status as [|p|p]; try congruence.
    repeat (destruct p as [p|p|]; try congruence).
    destruct json; congruence.
Qed.

(** The listing is returned on status 200; an error status gives nothing. *)
Lemma fetch_repo_contents_never_raises_witness :
  requests_get world_listing (api_url []) = HttpResponse 200 (Some sample_items)
  /\ fetch_repo_contents [] world_listing = (Ok sample_items, world_listing)
  /\ fetch_repo_contents (Py.lit "nowhere") world_listing
     = (Ok [], world_listing).
Proof.
  split; [reflexivity|]. split.
  - apply (fetch_repo_contents_never_raises [] world_listing). reflexivity.
  - apply (fetch_repo_contents_never_raises (Py.lit "nowhere") world_listing)
      with (status := 404%Z) (json := None); [reflexivity | discriminate].
Defined.

(** ** Saving *)

Section Saving.

Lemma save_keyclsound_closed_form (data : Py.str) (w : world) :
  save_keyclsound data w
  = let w1 := set_random_pos (S (random_pos w)) w in
    if open_denied w (next_filename w) then (Raise OSError, w1)
    else if utf8_encodable data
         then (Ok (next_filename w),
               set_files (<[next_filename w := data]> (files w)) w1)
         else (Raise UnicodeEncodeError,
               set_files (<[next_filename w := []]> (files w)) w1).
Proof.
  unfold save_keyclsound.
  rewrite (bind_ok _ _ _ _ _ (generate_random_filename_next w)).
  unfold bind, open_w, file_write, ret. simpl.
  destruct (open_denied w (next_filename w)); [reflexivity|].
  simpl. destruct (utf8_encodable data); [|reflexivity].
  rewrite insert_insert_eq. reflexivity.
Qed.

(** A denied write is reported by an exception and changes no file. *)
Lemma save_keyclsound_denied (data : Py.str) (w : world) :
  open_denied w (next_filename w) = true ->
  fst (save_keyclsound data w) = Raise OSError
  /\ files (snd (save_keyclsound data w)) = files w.
Proof.
  intros Hden. rewrite save_keyclsound_closed_form. simpl.
  rewrite Hden. split; reflexivity.
Qed.

End Saving.

(** C4, as the script behaves.  [save_keyclsound] does not look at the files
    that exist.  When the write is permitted and the text can be encoded as
    UTF-8, it returns the generated name, the file of that name holds
    exactly the text afterwards, and no other file changes; if no file had
    that name, exactly one file is new; if one had, it is still the only
    file of that name and its old text is gone. *)
Theorem save_keyclsound_replaces (data : Py.str) (w : world) :
  open_denied w (next_filename w) = false ->
  utf8_encodable data = true ->
  fst (save_keyclsound data w) = Ok (next_filename w)
  /\ files (snd (save_keyclsound data w)) !! next_filename w = Some data
  /\ (forall other, other <> next_filename w ->
      files (snd (save_keyclsound data w)) !! other = files w !! other)
  /\ (files w !! next_filename w = None ->
      dom (files (snd (save_keyclsound data w)))
      = {[ next_filename w ]} ∪ dom (files w)
      /\ size (files (snd (save_keyclsound data w))) = S (size (files w)))
  /\ (is_Some (files w !! next_filename w) ->
      dom (files (snd (save_keyclsound data w))) = dom (files w)).
Proof.
  intros Hden Henc. rewrite save_keyclsound_closed_form. simpl.
  rewrite Hden, Henc. simpl.
  split; [reflexivity|].
  split; [apply lookup_insert_eq|].
  split; [intros other Hne; apply lookup_insert_ne; congruence|].
  split.
  - intros Hnone. split.
    + apply dom_insert_L.
    + apply map_size_insert_None, Hnone.
  - intros Hsome. apply dom_insert_lookup_L, Hsome.
Qed.

Lemma save_keyclsound_replaces_witness :
  open_denied world_taken (next_filename world_taken) = false
  /\ utf8_encodable (Py.lit "new") = true
  /\ files (snd (save_keyclsound (Py.lit "new") world_taken))
       !! next_filename world_taken = Some (Py.lit "new").
Proof.
  split; [reflexivity|]. split; [reflexivity|].
  apply (save_keyclsound_replaces (Py.lit "new") world_taken);
    reflexivity.
Defined.

(** C4, counterexample.  A file named "10000000.keyclsound" holds "old";
    the next name drawn is that one.  Saving "new" returns normally and the
    file holds "new": the existing file was replaced without any failure. *)
Lemma save_keyclsound_overwrites_existing :
  files world_taken !! Py.lit "10000000.keyclsound" = Some (Py.lit "old")
  /\ fst (save_keyclsound (Py.lit "new") world_taken)
     = Ok (Py.lit "10000000.keyclsound")
  /\ files (snd (save_keyclsound (Py.lit "new") world_taken))
       !! Py.lit "10000000.keyclsound" = Some (Py.lit "new")
  /\ size (files (snd (save_keyclsound (Py.lit "new") world_taken)))
     = size (files world_taken).
Proof. vm_compute. repeat split; reflexivity. Qed.

(** ** Validation *)

Section Validation.

(** [generate_file] is validation of the entries, then encoding and
    saving: the two functions above are its two halves. *)
Lemma generate_file_codec (w : world) :
  generate_file w
  = match validate_entries w with
    | ValidationError message => messagebox_showerror "Error" message w
    | Valid d =>
        (do filename <- save_keyclsound (encode d);
         messagebox_showinfo "Success" (Py.lit "Saved as " ++ filename)) w
    end.
Proof.
  unfold generate_file, validate_entries, validate, bind, get.
  cbv beta iota.
  destruct (negb (truthy (Py.strip (author_entry w)))
            || negb (truthy (Py.strip (tags_entry w)))
            || negb (truthy (Py.strip (manual_url_entry w))));
    [reflexivity|].
  destruct (negb (Py.endswith_any (Py.strip (manual_url_entry w))
                    audio_suffixes)); reflexivity.
Qed.

Lemma validate_cases (t a d g u : Py.str) :
  (blank a || blank g || blank u
   || negb (Py.endswith_any (Py.strip u) audio_suffixes) = true
   /\ exists message, validate t a d g u = ValidationError message)
  \/ (blank a || blank g || blank u
      || negb (Py.endswith_any (Py.strip u) audio_suffixes) = false
      /\ validate t a d g u
         = Valid {| title := py_or (Py.strip t) (Py.lit "Untitled Song");
                    author := Py.strip a;
                    description := Py.strip d;
                    tags := Py.strip g;
                    url := Py.strip u |}).
Proof.
  unfold validate, blank.
  destruct (negb (truthy (Py.strip a)) || negb (truthy (Py.strip g))
            || negb (truthy (Py.strip u))).
  - left. split; [reflexivity | eexists; reflexivity].
  - destruct (negb (Py.endswith_any (Py.strip u) audio_suffixes)).
    + left. split; [reflexivity | eexists; reflexivity].
    + right. split; reflexivity.
Qed.

End Validation.

(** C2. [validate] fails with a [ValidationError] exactly when the author
    is blank, or the tags are blank, or the url is blank, or the trimmed url
    ends with none of ".mp3", ".wav", ".ogg"; on every other input it
    succeeds. *)
Theorem validate_fails_iff (t a d g u : Py.str) :
  ((exists message, validate t a d g u = ValidationError message)
   <-> (blank a = true \/ blank g = true \/ blank u = true
        \/ Py.endswith_any (Py.strip u) audio_suffixes = false))
  /\ ((exists desc, validate t a d g u = Valid desc)
      <-> ~ (blank a = true \/ blank g = true \/ blank u = true
             \/ Py.endswith_any (Py.strip u) audio_suffixes = false)).
Proof.
  destruct (validate_cases t a d g u) as [[Hc [m Hm]] | [Hc Hv]];
    rewrite ?orb_true_iff, ?orb_false_iff, ?negb_true_iff, ?negb_false_iff
      in Hc.
  - split; split.
    + intros _. tauto.
    + intros _. exists m. exact Hm.
    + intros [desc Hd]. congruence.
    + intros Hn. exfalso. apply Hn. tauto.
  - destruct Hc as [[[Ha Hg] Hu] He]. split; split.
    + intros [m Hm]. congruence.
    + intros [H | [H | [H | H]]]; congruence.
    + intros _ [H | [H | [H | H]]]; congruence.
    + intros _. eexists. exact Hv.
Qed.

(** C7. The extension check compares the end of the trimmed url with
    ".mp3", ".wav" and ".ogg" code point by code point: when none of the
    three is a suffix of it, [validate] fails with a [ValidationError]. *)
Theorem validate_rejects_other_suffix (t a d g u : Py.str) :
  (forall suffix, suffix ∈ audio_suffixes -> ~ suffix `suffix_of` Py.strip u) ->
  exists message, validate t a d g u = ValidationError message.
Proof.
  intros Hnone.
  destruct (validate_cases t a d g u) as [[_ Hfail] | [Hc _]];
    [exact Hfail|].
  rewrite !orb_false_iff, negb_false_iff in Hc. destruct Hc as [_ Hends].
  apply endswith_any_spec in Hends. destruct Hends as (suffix & Hin & Hsuf).
  exfalso. exact (Hnone suffix Hin Hsuf).
Qed.

(** An upper-case extension is no match. *)
Lemma validate_rejects_other_suffix_witness :
  (forall suffix, suffix ∈ audio_suffixes ->
                  ~ suffix `suffix_of` Py.strip (Py.lit "sound.MP3"))
  /\ exists message,
       validate (Py.lit "T") (Py.lit "A") [] (Py.lit "t") (Py.lit "sound.MP3")
       = ValidationError message.
Proof.
  assert (Hnone : forall suffix, suffix ∈ audio_suffixes ->
                    ~ suffix `suffix_of` Py.strip (Py.lit "sound.MP3")).
  { intros suffix Hin Hsuf.
    assert (Hends : Py.endswith_any (Py.strip (Py.lit "sound.MP3"))
                      audio_suffixes = true)
      by (apply endswith_any_spec; exists suffix; split; assumption).
    vm_compute in Hends. discriminate Hends. }
  split; [exact Hnone|].
  exact (validate_rejects_other_suffix (Py.lit "T") (Py.lit "A") []
           (Py.lit "t") (Py.lit "sound.MP3") Hnone).
Defined.

(** Other urls the check turns down, and one it lets through. *)
Example validate_suffix_examples :
  validate [] (Py.lit "A") [] (Py.lit "t") (Py.lit "song.flac")
  = ValidationError "URL must end with .mp3, .wav, or .ogg"
  /\ validate [] (Py.lit "A") [] (Py.lit "t") (Py.lit "song")
     = ValidationError "URL must end with .mp3, .wav, or .ogg"
  /\ validate [] (Py.lit "A") [] (Py.lit "t") (Py.lit "song.Ogg")
     = ValidationError "URL must end with .mp3, .wav, or .ogg"
  /\ validate [] (Py.lit "A") [] (Py.lit "t") []
     = ValidationError "Author, Tags, and URL are required!"
  /\ exists desc,
       validate [] (Py.lit "A") [] (Py.lit "t") (Py.lit " song.ogg ")
       = Valid desc.
Proof. repeat split; try reflexivity. eexists. reflexivity. Qed.

(** C5. When validation succeeds, a blank title has become
    "Untitled Song" and a title that is not blank is kept: the descriptor
    holds its trimmed text, which is the title itself for a caller that
    passes trimmed fields. *)
Theorem validate_title_default (t a d g u : Py.str) (desc : descriptor) :
  validate t a d g u = Valid desc ->
  (blank t = true -> title desc = Py.lit "Untitled Song")
  /\ (blank t = false -> title desc = Py.strip t)
  /\ (blank t = false -> Py.strip t = t -> title desc = t).
Proof.
  intros Hv.
  destruct (validate_cases t a d g u) as [[_ [m Hm]] | [_ Hv']];
    [congruence|].
  rewrite Hv' in Hv. injection Hv as <-. simpl.
  unfold blank, py_or. destruct (truthy (Py.strip t)); simpl.
  - repeat split; congruence.
  - repeat split; congruence.
Qed.

Lemma validate_title_default_witness :
  validate [] (Py.lit "A") [] (Py.lit "t") (Py.lit "x.mp3")
  = Valid {| title := Py.lit "Untitled Song"; author := Py.lit "A";
             description := []; tags := Py.lit "t"; url := Py.lit "x.mp3" |}
  /\ blank [] = true
  /\ title {| title := Py.lit "Untitled Song"; author := Py.lit "A";
              description := []; tags := Py.lit "t"; url := Py.lit "x.mp3" |}
     = Py.lit "Untitled Song".
Proof.
  split; [reflexivity|]. split; [reflexivity|].
  apply (validate_title_default [] (Py.lit "A") [] (Py.lit "t")
           (Py.lit "x.mp3")); reflexivity.
Defined.

Example validate_title_kept :
  exists desc,
    validate (Py.lit " Quork ") (Py.lit "A") [] (Py.lit "t") (Py.lit "x.mp3")
    = Valid desc /\ title desc = Py.lit "Quork".
Proof. eexists. split; reflexivity. Qed.

(** C8. When the entries fail validation, [generate_file] returns without
    raising after one error dialog: the world it leaves differs from the one
    it found by that dialog only, so no file is written, no random number is
    drawn and no widget or global changes. *)
Theorem generate_file_invalid_is_inert (w : world) (message : string) :
  validate_entries w = ValidationError message ->
  generate_file w
  = (Ok tt,
     set_dialogs (dialogs w ++ [showerror (Py.lit "Error") (Py.lit message)]) w)
  /\ files (snd (generate_file w)) = files w
  /\ random_pos (snd (generate_file w)) = random_pos w
  /\ same_url w (snd (generate_file w)).
Proof.
  intros Hv. rewrite generate_file_codec, Hv.
  repeat split; reflexivity.
Qed.

Lemma generate_file_invalid_is_inert_witness :
  validate_entries world_taken
  = ValidationError "Author, Tags, and URL are required!"
  /\ files (snd (generate_file world_taken)) = files world_taken.
Proof.
  split; [reflexivity|].
  apply (generate_file_invalid_is_inert world_taken
           "Author, Tags, and URL are required!"). reflexivity.
Defined.

(** ** Encoding *)

Section Lines.

(** A text without line feed, followed by a line feed, is the first piece
    [split] cuts. *)
Lemma split_first_line (v rest : Py.str) :
  no_line_break v ->
  Py.split Py.NL (v ++ Py.NL :: rest) = v :: Py.split Py.NL rest.
Proof.
  unfold no_line_break. induction v as [|c v IH]; intros Hv.
  - reflexivity.
  - apply not_elem_of_cons in Hv. destruct Hv as [Hc Hv].
    simpl. destruct (N.eqb_spec c Py.NL) as [Heq | _]; [congruence|].
    rewrite (IH Hv). reflexivity.
Qed.

Lemma no_line_break_app (a b : Py.str) :
  no_line_break a -> no_line_break b -> no_line_break (a ++ b).
Proof. unfold no_line_break. intros Ha Hb. apply not_elem_of_app. auto. Qed.

Lemma no_line_break_keys :
  no_line_break (Py.lit "title: ") /\ no_line_break (Py.lit "author: ")
  /\ no_line_break (Py.lit "description: ")
  /\ no_line_break (Py.lit "tags: ") /\ no_line_break (Py.lit "url: ").
Proof. unfold no_line_break. repeat split; compute_done. Qed.

(** The same for the lines [decode] reads. *)
Lemma split_lines_first_line (v rest : Py.str) :
  no_line_break v ->
  split_lines (v ++ Py.NL :: rest) = v :: split_lines rest.
Proof.
  unfold no_line_break. induction v as [|c v IH]; intros Hv.
  - reflexivity.
  - apply not_elem_of_cons in Hv. destruct Hv as [Hc Hv].
    simpl. destruct (N.eqb_spec c Py.NL) as [Heq | _]; [congruence|].
    rewrite (IH Hv). reflexivity.
Qed.

(** [encode] as five lines, each closed by a line feed. *)
Lemma encode_lines (d : descriptor) :
  encode d
  = (Py.lit "title: " ++ title d) ++ Py.NL
    :: (Py.lit "author: " ++ author d) ++ Py.NL
    :: (Py.lit "description: " ++ description d) ++ Py.NL
    :: (Py.lit "tags: " ++ tags d) ++ Py.NL
    :: (Py.lit "url: " ++ url d) ++ Py.NL :: [].
Proof.
  unfold encode. rewrite <- !app_assoc. reflexivity.
Qed.

End Lines.

(** C3, as the script behaves.  For every descriptor the text [encode]
    produces is the five pairs [title], [author], [description], [tags],
    [url] in that order, each written [key: value] and followed by a line
    feed, and nothing else.  When no field contains a line feed, the line
    feeds cut the text into exactly these five lines, none of them empty,
    with nothing after the last line feed.  For the descriptor of the
    example the text is the block shown followed by one line feed. *)
Theorem encode_five_lines (d : descriptor) :
  encode d
  = concat
      (map (fun kv => fst kv ++ Py.lit ": " ++ snd kv ++ [Py.NL])
         [ (Py.lit "title", title d);
           (Py.lit "author", author d);
           (Py.lit "description", description d);
           (Py.lit "tags", tags d);
           (Py.lit "url", url d) ])
  /\ (single_line_fields d ->
      Py.split Py.NL (encode d)
      = [ Py.lit "title: " ++ title d;
          Py.lit "author: " ++ author d;
          Py.lit "description: " ++ description d;
          Py.lit "tags: " ++ tags d;
          Py.lit "url: " ++ url d;
          [] ])
  /\ encode quork = quork_block ++ [Py.NL].
Proof.
  split; [|split; [|reflexivity]].
  - unfold encode. cbn [map concat fst snd].
    rewrite app_nil_r, <- !app_assoc. reflexivity.
  - intros (Ht & Ha & Hd & Hg & Hu).
    destruct no_line_break_keys as (Kt & Ka & Kd & Kg & Ku).
    rewrite encode_lines.
    rewrite !split_first_line by (apply no_line_break_app; assumption).
    reflexivity.
Qed.

Lemma encode_five_lines_witness :
  single_line_fields quork
  /\ Py.split Py.NL (encode quork)
     = [ Py.lit "title: Quork";
         Py.lit "author: MyInstants";
         Py.lit "description: A funny quack sound";
         Py.lit "tags: duck,funny,quack";
         Py.lit "url: https://example.com/cannard.mp3";
         [] ]
  /\ encode two_paragraphs
     = Py.lit "title: T" ++ [Py.NL] ++ Py.lit "author: A" ++ [Py.NL]
       ++ Py.lit "description: a" ++ [Py.NL; Py.NL] ++ Py.lit "b" ++ [Py.NL]
       ++ Py.lit "tags: t" ++ [Py.NL] ++ Py.lit "url: x.mp3" ++ [Py.NL].
Proof.
  assert (H : single_line_fields quork)
    by (unfold single_line_fields, no_line_break; repeat split; compute_done).
  split; [exact H|]. split.
  - exact (proj1 (proj2 (encode_five_lines quork)) H).
  - rewrite (proj1 (encode_five_lines two_paragraphs)). reflexivity.
Defined.

(** C3, counterexample.  The text produced for the descriptor of the example
    is not the block of the specification taken as a string: a line feed
    follows the url.
    And for a descriptor whose description has two paragraphs the line
    feeds cut the text into eight pieces (seven lines and the empty piece
    after the last line feed), the fourth of them an empty line. *)
Lemma encode_not_the_claimed_block :
  encode quork <> quork_block
  /\ Py.split Py.NL (encode two_paragraphs) !! 3%nat = Some []
  /\ length (Py.split Py.NL (encode two_paragraphs)) = 8%nat.
Proof.
  split; [|split].
  - intros H. apply (f_equal (@length N)) in H. vm_compute in H.
    discriminate H.
  - reflexivity.
  - reflexivity.
Qed.

(** ** Decoding *)

Section Decoding.

(** A key without colon, then ": ", then the value. *)
Lemma parse_line_pair (key value : Py.str) :
  0x3A ∉ key ->
  parse_line (key ++ 0x3A :: 0x20 :: value) = Some (key, value).
Proof.
  induction key as [|c key IH]; intros Hkey.
  - reflexivity.
  - apply not_elem_of_cons in Hkey. destruct Hkey as [Hc Hkey].
    cbn [app parse_line].
    destruct (N.eqb_spec c 0x3A) as [Heq | _]; [congruence|].
    rewrite (IH Hkey). reflexivity.
Qed.

Lemma find_key_five (t a d g u : Py.str) :
  let pairs := [ (Py.lit "title", t); (Py.lit "author", a);
                 (Py.lit "description", d); (Py.lit "tags", g);
                 (Py.lit "url", u) ] in
  find_key (Py.lit "title") pairs = Some t
  /\ find_key (Py.lit "author") pairs = Some a
  /\ find_key (Py.lit "description") pairs = Some d
  /\ find_key (Py.lit "tags") pairs = Some g
  /\ find_key (Py.lit "url") pairs = Some u.
Proof. repeat split. Qed.

Lemma parse_encoded_lines (d : descriptor) :
  single_line_fields d ->
  parse_lines (split_lines (encode d))
  = Some [ (Py.lit "title", title d); (Py.lit "author", author d);
           (Py.lit "description", description d); (Py.lit "tags", tags d);
           (Py.lit "url", url d) ].
Proof.
  intros (Ht & Ha & Hd & Hg & Hu).
  destruct no_line_break_keys as (Kt & Ka & Kd & Kg & Ku).
  rewrite encode_lines.
  rewrite !split_lines_first_line by (apply no_line_break_app; assumption).
  cbn [split_lines parse_lines].
  change (Py.lit "title: ") with (Py.lit "title" ++ [0x3A; 0x20]).
  change (Py.lit "author: ") with (Py.lit "author" ++ [0x3A; 0x20]).
  change (Py.lit "description: ") with (Py.lit "description" ++ [0x3A; 0x20]).
  change (Py.lit "tags: ") with (Py.lit "tags" ++ [0x3A; 0x20]).
  change (Py.lit "url: ") with (Py.lit "url" ++ [0x3A; 0x20]).
  rewrite <- !app_assoc. cbn [app].
  rewrite !parse_line_pair by compute_done.
  reflexivity.
Qed.

(** The round trip needs a title that is not blank and fields of one line. *)
Lemma decode_encode_single_line (d : descriptor) :
  blank (title d) = false ->
  single_line_fields d ->
  decode (encode d) = Decoded d.
Proof.
  intros Htitle Hlines. unfold decode.
  rewrite (parse_encoded_lines d Hlines).
  destruct (find_key_five (title d) (author d) (description d) (tags d)
              (url d)) as (Ft & Fa & Fd & Fg & Fu).
  cbv zeta in Ft, Fa, Fd, Fg, Fu.
  rewrite Ft, Fa, Fd, Fg, Fu, Htitle.
  destruct d; reflexivity.
Qed.

(** What [validate] returns is well-formed. *)
Lemma validate_well_formed (t a d g u : Py.str) (desc : descriptor) :
  validate t a d g u = Valid desc -> well_formed desc.
Proof.
  intros Hv.
  destruct (validate_cases t a d g u) as [[_ [m Hm]] | [Hc Hv']];
    [congruence|].
  rewrite Hv' in Hv. injection Hv as <-.
  rewrite !orb_false_iff, negb_false_iff in Hc.
  destruct Hc as [[[Ha Hg] Hu] He].
  unfold well_formed. simpl. rewrite !blank_strip.
  repeat split; try assumption.
  unfold py_or. destruct (truthy (Py.strip t)) eqn:Ht.
  - rewrite blank_strip. unfold blank. rewrite Ht. reflexivity.
  - reflexivity.
Qed.

(** Section 8 of the specification, first property: the descriptor that
    [validate] returns is read back from its text, as long as the entries
    hold one line each. *)
Lemma validate_encode_decode (t a d g u : Py.str) (desc : descriptor) :
  validate t a d g u = Valid desc ->
  single_line_fields desc ->
  decode (encode desc) = Decoded desc.
Proof.
  intros Hv Hlines. apply decode_encode_single_line; [|exact Hlines].
  apply (validate_well_formed _ _ _ _ _ _ Hv).
Qed.

End Decoding.

(** C1, for the reader described by the specification.  For every
    well-formed descriptor none of whose fields contains a line feed,
    decoding the text that [encode] produces gives the descriptor back. *)
Theorem decode_encode (d : descriptor) :
  well_formed d ->
  single_line_fields d ->
  decode (encode d) = Decoded d.
Proof.
  intros (Htitle & _) Hlines.
  apply decode_encode_single_line; assumption.
Qed.

Lemma decode_encode_witness :
  well_formed quork /\ single_line_fields quork
  /\ decode (encode quork) = Decoded quork.
Proof.
  assert (Hw : well_formed quork) by (repeat split).
  assert (Hl : single_line_fields quork)
    by (unfold single_line_fields, no_line_break; repeat split; compute_done).
  split; [exact Hw|]. split; [exact Hl|].
  exact (decode_encode quork Hw Hl).
Defined.

(** C1, counterexample.  Two different well-formed descriptors are encoded
    to the same text, so no reader can give each of them back; the reader of
    the specification returns neither of the two. *)
Lemma decode_encode_fails_on_line_feed :
  well_formed ambiguous_a /\ well_formed ambiguous_b
  /\ ambiguous_a <> ambiguous_b
  /\ encode ambiguous_a = encode ambiguous_b
  /\ decode (encode ambiguous_a) <> Decoded ambiguous_a
  /\ decode (encode ambiguous_b) <> Decoded ambiguous_b.
Proof.
  split; [repeat split|]. split; [repeat split|].
  split; [intros H; vm_compute in H; discriminate H|].
  split; [reflexivity|].
  split; intros H; vm_compute in H; discriminate H.
Qed.

(** Whatever the reader, it is not a left inverse of [encode] on all
    well-formed descriptors. *)
Lemma encode_has_no_left_inverse (reader : Py.str -> decoded) :
  ~ (forall d, well_formed d -> reader (encode d) = Decoded d).
Proof.
  intros Hinv.
  assert (Ha : reader (encode ambiguous_a) = Decoded ambiguous_a)
    by (apply Hinv; repeat split).
  assert (Hb : reader (encode ambiguous_b) = Decoded ambiguous_b)
    by (apply Hinv; repeat split).
  change (encode ambiguous_b) with (encode ambiguous_a) in Hb.
  rewrite Ha in Hb. vm_compute in Hb. discriminate Hb.
Qed.

(** A field with a line feed that is no pair makes the reader fail. *)
Example decode_two_paragraphs :
  well_formed two_paragraphs /\ decode (encode two_paragraphs) = ParseError.
Proof. split; [repeat split | reflexivity]. Qed.

(** ** The repository browser *)

Section Browser.

(** What [select_item] does, by the row that is selected. *)
Lemma select_item_cases (items : list item) (w : world) :
  match selected_item items w with
  | None => same_url w (snd (select_item items w))
  | Some it =>
      if Py.eqb (item_type it) (Py.lit "dir")
      then select_item items w = load_repo (item_path it) w
      else if Py.eqb (item_type it) (Py.lit "file")
      then if Py.endswith_any (item_name it) audio_suffixes
           then fst (select_item items w) = Ok tt
                /\ selected_url (snd (select_item items w))
                   = item_download_url it
                /\ manual_url_entry (snd (select_item items w))
                   = item_download_url it
           else select_item items w
                = messagebox_showinfo "Info"
                    (Py.lit "Only .mp3, .wav, or .ogg can be selected for KeyCL.")
                    w
      else select_item items w = (Ok tt, w)
  end.
Proof.
  unfold selected_item, select_item, bind, get. cbv beta iota.
  destruct (curselection w) as [|idx rest]; [apply same_url_refl|].
  destruct (truthy (current_path w) && (idx =? 0)%nat).
  { apply keeps_load_repo. }
  unfold list_index.
  destruct (items !! (if negb (truthy (current_path w)) then idx
                      else idx - 1)%nat) as [it|];
    [|apply same_url_refl].
  unfold ret. cbv beta iota.
  destruct (Py.eqb (item_type it) (Py.lit "dir")); [reflexivity|].
  destruct (Py.eqb (item_type it) (Py.lit "file")); [|reflexivity].
  destruct (Py.endswith_any (item_name it) audio_suffixes); [|reflexivity].
  unfold modify. simpl. rewrite app_nil_r. repeat split.
Qed.

End Browser.

(** C10. Selecting a file whose name ends with none of ".mp3", ".wav",
    ".ogg" shows the information dialog and changes nothing else, so the
    selected URL and the manual URL entry stay as they were; and whenever
    [select_item] leaves either of the two changed, the selected row was a
    file with one of the three suffixes. *)
Theorem select_item_other_file_keeps_url (items : list item) (w : world) :
  (forall it,
     selected_item items w = Some it ->
     item_type it = Py.lit "file" ->
     Py.endswith_any (item_name it) audio_suffixes = false ->
     select_item items w
     = (Ok tt,
        set_dialogs
          (dialogs w
           ++ [showinfo (Py.lit "Info")
                 (Py.lit "Only .mp3, .wav, or .ogg can be selected for KeyCL.")])
          w)
     /\ same_url w (snd (select_item items w)))
  /\ (~ same_url w (snd (select_item items w)) ->
      exists it,
        selected_item items w = Some it
        /\ item_type it = Py.lit "file"
        /\ Py.endswith_any (item_name it) audio_suffixes = true).
Proof.
  pose proof (select_item_cases items w) as Hcases. split.
  - intros it Hsel Htype Hends. rewrite Hsel, Htype, Hends in Hcases.
    change (Py.eqb (Py.lit "file") (Py.lit "dir")) with false in Hcases.
    change (Py.eqb (Py.lit "file") (Py.lit "file")) with true in Hcases.
    cbv iota in Hcases. rewrite Hcases. split; [reflexivity|].
    split; reflexivity.
  - intros Hchanged.
    destruct (selected_item items w) as [it|]; [|contradiction].
    exists it. split; [reflexivity|].
    unfold Py.eqb in Hcases.
    destruct (bool_decide_reflect (item_type it = Py.lit "dir")) as [_ | _].
    { exfalso. apply Hchanged. rewrite Hcases. apply keeps_load_repo. }
    destruct (bool_decide_reflect (item_type it = Py.lit "file"))
      as [Hfile | _].
    + split; [exact Hfile|].
      destruct (Py.endswith_any (item_name it) audio_suffixes);
        [reflexivity|].
      exfalso. apply Hchanged. rewrite Hcases. split; reflexivity.
    + exfalso. apply Hchanged. rewrite Hcases. apply same_url_refl.
Qed.

Lemma select_item_other_file_keeps_url_witness :
  selected_item sample_items world_listing = sample_items !! 0%nat
  /\ same_url world_listing (snd (select_item sample_items world_listing))
  /\ dialogs (snd (select_item sample_items world_listing))
     = [showinfo (Py.lit "Info")
          (Py.lit "Only .mp3, .wav, or .ogg can be selected for KeyCL.")].
Proof.
  split; [reflexivity|].
  destruct (proj1 (select_item_other_file_keeps_url sample_items world_listing)
              {| item_name := Py.lit "README.md"; item_type := Py.lit "file";
                 item_path := Py.lit "README.md";
                 item_download_url := Py.lit "https://example.com/README.md" |}
              eq_refl eq_refl eq_refl) as [Hrun Hsame].
  split; [exact Hsame|].
  rewrite Hrun. reflexivity.
Defined.

(** Selecting the sound sets both URL holders; the bound handler is the one
    [load_repo] installed. *)
Example select_item_sound :
  let w := set_files_listbox (files_listbox world_listing) [1%nat]
             world_listing in
  selected_url (snd (on_listbox_select w)) = Py.lit "https://example.com/a.mp3"
  /\ manual_url_entry (snd (on_listbox_select w))
     = Py.lit "https://example.com/a.mp3"
  /\ dialogs (snd (on_listbox_select w)) = [].
Proof. repeat split. Qed.

Example load_repo_root :
  files_listbox (snd (load_repo [] world0)) = []
  /\ files_listbox (snd (load_repo [] world_listing))
     = files_listbox world_listing
  /\ listbox_select (snd (load_repo [] world_listing)) = Some sample_items
  /\ curselection (snd (load_repo [] world_listing)) = [].
Proof. repeat split. Qed.


(** * Further properties of the script *)

(** ** Loading a folder *)

Section LoadRepo.

Lemma for_each_rows (f : item -> Py.str) (items : list item) :
  forall w,
    for_each items (fun it => listbox_insert_end (f it)) w
    = (Ok tt,
       set_files_listbox (files_listbox w ++ map f items) (curselection w) w).
Proof.
  induction items as [|it items IH]; intros w.
  - simpl. rewrite app_nil_r. destruct w; reflexivity.
  - cbn [for_each map]. unfold bind at 1.
    unfold listbox_insert_end at 1. unfold modify at 1.
    rewrite IH. cbn [files_listbox curselection set_files_listbox].
    rewrite <- app_assoc. reflexivity.
Qed.

(** The world [load_repo] leaves on a listing that keeps to the interface,
    written out. *)
Lemma load_repo_closed_form (path : Py.str) (w : world) :
  load_repo path w
  = (Ok tt,
     set_listbox_select (Some (listing path w))
       (set_files_listbox (rows_of path w) []
          (set_repo_label
             (if truthy path then Py.lit "Browsing: /" ++ path
              else Py.lit "Browsing: /")
             (set_current_path path w)))).
Proof.
  unfold load_repo.
  unfold bind at 1 2. unfold modify at 1 2.
  rewrite (bind_ok _ _ _ _ _ (fetch_repo_contents_closed_form path _)).
  change (requests_get (set_repo_label _ (set_current_path path w)))
    with (requests_get w).
  fold (listing path w).
  unfold bind at 1. unfold modify at 1.
  unfold bind at 1.
  pose proof (for_each_rows row_of (listing path w)) as Hloop.
  unfold row_of in Hloop.
  destruct (truthy path) eqn:Hpath.
  - unfold listbox_insert_end at 1. unfold modify at 1.
    unfold bind at 1. rewrite Hloop. unfold modify.
    unfold rows_of. rewrite Hpath. reflexivity.
  - unfold ret at 1.
    unfold bind at 1. rewrite Hloop. unfold modify.
    unfold rows_of. rewrite Hpath. reflexivity.
Qed.

End LoadRepo.

Section BrowsingFacts.

Lemma listing_none (path : Py.str) (w : world) :
  (forall body, requests_get w (api_url path) <> HttpResponse 200 (Some body)) ->
  listing path w = [].
Proof.
  intros Hno. unfold listing.
  destruct (requests_get w (api_url path)) as [e | status json];
    [reflexivity|].
  destruct status as [|p|p]; try reflexivity.
  repeat (destruct p as [p|p|]; try reflexivity).
  destruct json as [body|]; [|reflexivity].
  exfalso. exact (Hno body eq_refl).
Qed.

Lemma rows_of_length (path : Py.str) (w : world) :
  length (rows_of path w)
  = (length (listing path w) + if truthy path then 1 else 0)%nat.
Proof.
  unfold rows_of. rewrite length_app, length_map.
  destruct (truthy path); simpl; lia.
Qed.

End BrowsingFacts.

(** X1. When the listing service answers 200 with a list of entries,
    [load_repo] records the path, clears the selection, hands that list to
    the selection handler and fills the list box with the "[..]" row (for a
    path that is not empty) followed by one row per entry, in the order of
    the list. *)
Theorem load_repo_rows (path : Py.str) (w : world) (body : list item) :
  requests_get w (api_url path) = HttpResponse 200 (Some body) ->
  current_path (snd (load_repo path w)) = path
  /\ curselection (snd (load_repo path w)) = []
  /\ listbox_select (snd (load_repo path w)) = Some body
  /\ files_listbox (snd (load_repo path w))
     = (if truthy path then [Py.lit "[..]"] else []) ++ map row_of body
  /\ length (files_listbox (snd (load_repo path w)))
     = (length body + if truthy path then 1 else 0)%nat.
Proof.
  intros Hget.
  assert (Hlisting : listing path w = body)
    by (unfold listing; rewrite Hget; reflexivity).
  rewrite load_repo_closed_form. cbn [snd].
  cbn [current_path curselection listbox_select files_listbox
       set_listbox_select set_files_listbox set_repo_label set_current_path].
  rewrite rows_of_length. unfold rows_of. rewrite Hlisting.
  repeat split.
Qed.

Lemma load_repo_rows_witness :
  requests_get world_listing (api_url []) = HttpResponse 200 (Some sample_items)
  /\ files_listbox (snd (load_repo [] world_listing))
     = [ [0x1F4C4; 0x20] ++ Py.lit "README.md";
         [0x1F3B5; 0x20] ++ Py.lit "a.mp3" ]
  /\ listbox_select (snd (load_repo [] world_listing)) = Some sample_items.
Proof.
  split; [reflexivity|].
  destruct (load_repo_rows [] world_listing sample_items eq_refl)
    as (_ & _ & Hhandler & Hrows & _).
  split; [exact Hrows | exact Hhandler].
Defined.

(** X2. [load_repo] writes no file, shows no dialog, draws no random number
    and leaves the five entries and the selected URL as they were. *)
Theorem load_repo_frame (path : Py.str) (w : world) :
  untouched_by_browsing w (snd (load_repo path w))
  /\ dialogs (snd (load_repo path w)) = dialogs w
  /\ same_url w (snd (load_repo path w)).
Proof.
  rewrite load_repo_closed_form. cbn [snd].
  split; [constructor; reflexivity|]. split; [reflexivity|].
  split; reflexivity.
Qed.

(** X3. When the listing service fails (the request raises, the status is
    not 200 or the body is not JSON), [load_repo] still moves to the path
    asked for and shows an empty folder: the list box holds the "[..]" row
    alone, or nothing at the root, and no dialog reports the failure. *)
Theorem load_repo_offline (path : Py.str) (w : world) :
  (forall body, requests_get w (api_url path) <> HttpResponse 200 (Some body)) ->
  current_path (snd (load_repo path w)) = path
  /\ files_listbox (snd (load_repo path w))
     = (if truthy path then [Py.lit "[..]"] else [])
  /\ dialogs (snd (load_repo path w)) = dialogs w.
Proof.
  intros Hno. rewrite load_repo_closed_form. cbn [snd].
  split; [reflexivity|]. split; [|reflexivity].
  cbn [files_listbox set_listbox_select set_files_listbox].
  unfold rows_of. rewrite (listing_none path w Hno). apply app_nil_r.
Qed.

Lemma load_repo_offline_witness :
  (forall body, requests_get world_filled (api_url (Py.lit "sounds"))
                <> HttpResponse 200 (Some body))
  /\ current_path (snd (load_repo (Py.lit "sounds") world_filled))
     = Py.lit "sounds"
  /\ files_listbox (snd (load_repo (Py.lit "sounds") world_filled))
     = [Py.lit "[..]"].
Proof.
  assert (Hno : forall body,
             requests_get world_filled (api_url (Py.lit "sounds"))
             <> HttpResponse 200 (Some body)) by (intros body; discriminate).
  split; [exact Hno|].
  destruct (load_repo_offline (Py.lit "sounds") world_filled Hno)
    as (Hpath & Hrows & _).
  split; [exact Hpath | exact Hrows].
Defined.



(** ** Paths *)

Section Paths.

Lemma split_not_nil (sep : N) (s : list N) : Py.split sep s <> [].
Proof.
  destruct s as [|c s]; simpl; [discriminate|].
  destruct (c =? sep); [discriminate|].
  destruct (Py.split sep s); discriminate.
Qed.

Lemma split_no_sep (sep : N) (s : list N) :
  sep ∉ s -> Py.split sep s = [s].
Proof.
  induction s as [|c s IH]; intros Hs; [reflexivity|].
  apply not_elem_of_cons in Hs. destruct Hs as [Hc Hs].
  simpl. destruct (N.eqb_spec c sep) as [Heq | _]; [congruence|].
  rewrite (IH Hs). reflexivity.
Qed.

Lemma split_last_piece (sep : N) (p seg : list N) :
  sep ∉ seg ->
  Py.split sep (p ++ sep :: seg) = Py.split sep p ++ [seg].
Proof.
  intros Hseg. induction p as [|c p IH].
  - simpl. rewrite N.eqb_refl, (split_no_sep sep seg Hseg). reflexivity.
  - cbn [app Py.split]. rewrite IH.
    destruct (c =? sep); [reflexivity|].
    pose proof (split_not_nil sep p) as Hne.
    destruct (Py.split sep p) as [|x xs]; [congruence | reflexivity].
Qed.

(** Joining the pieces of a split with the separator gives the text back. *)
Lemma join_split (sep : N) (s : list N) :
  Py.join [sep] (Py.split sep s) = s.
Proof.
  induction s as [|c s IH]; [reflexivity|].
  pose proof (split_not_nil sep s) as Hne.
  cbn [Py.split]. destruct (N.eqb_spec c sep) as [-> | _].
  - destruct (Py.split sep s) as [|x xs]; [congruence|].
    cbn [Py.join app] in *. rewrite IH. reflexivity.
  - destruct (Py.split sep s) as [|x xs]; [congruence|].
    destruct xs as [|y ys]; cbn [Py.join app] in *; rewrite <- IH;
      reflexivity.
Qed.

Lemma parent_of_child (p seg : list N) :
  0x2F ∉ seg -> parent_of (p ++ 0x2F :: seg) = p.
Proof.
  intros Hseg. unfold parent_of, Py.but_last.
  rewrite (split_last_piece _ p seg Hseg), removelast_last.
  apply join_split.
Qed.

Lemma parent_of_top (seg : list N) : 0x2F ∉ seg -> parent_of seg = [].
Proof.
  intros Hseg. unfold parent_of, Py.but_last.
  rewrite (split_no_sep _ seg Hseg). reflexivity.
Qed.

End Paths.

(** ** Selecting a row *)

Section SelectItem.

Lemma select_item_back_row (items : list item) (w : world) (rest : list nat) :
  curselection w = 0%nat :: rest ->
  truthy (current_path w) = true ->
  select_item items w = load_repo (parent_of (current_path w)) w.
Proof.
  intros Hsel Hcur. unfold select_item, bind, get. cbv beta iota.
  rewrite Hsel, Hcur. reflexivity.
Qed.

End SelectItem.

(** X5. Selecting a file whose name ends with ".mp3", ".wav" or ".ogg"
    puts its download URL both in the selected URL and in the manual URL
    entry, whose former text is discarded; nothing else changes and no
    dialog is shown. *)
Theorem select_item_sound_sets_url (items : list item) (w : world) (it : item) :
  selected_item items w = Some it ->
  item_type it = Py.lit "file" ->
  Py.endswith_any (item_name it) audio_suffixes = true ->
  select_item items w
  = (Ok tt,
     set_manual_url_entry (item_download_url it)
       (set_selected_url (item_download_url it) w)).
Proof.
  unfold selected_item, select_item, bind, get. cbv beta iota.
  destruct (curselection w) as [|idx rest]; [discriminate|].
  destruct (truthy (current_path w) && (idx =? 0)%nat); [discriminate|].
  unfold list_index. intros -> Htype Hends.
  unfold ret. cbv beta iota. rewrite Htype, Hends.
  change (Py.eqb (Py.lit "file") (Py.lit "dir")) with false.
  change (Py.eqb (Py.lit "file") (Py.lit "file")) with true.
  cbv iota. unfold modify. cbn [selected_url manual_url_entry
                                set_manual_url_entry set_selected_url].
  rewrite app_nil_r. reflexivity.
Qed.

Lemma select_item_sound_sets_url_witness :
  selected_item sample_items (click 1 world_listing) = sample_items !! 1%nat
  /\ manual_url_entry (click 1 world_listing) = Py.lit "typed by hand"
  /\ manual_url_entry (snd (select_item sample_items (click 1 world_listing)))
     = Py.lit "https://example.com/a.mp3"
  /\ selected_url (snd (select_item sample_items (click 1 world_listing)))
     = Py.lit "https://example.com/a.mp3".
Proof.
  split; [reflexivity|]. split; [reflexivity|].
  rewrite (select_item_sound_sets_url sample_items (click 1 world_listing)
             {| item_name := Py.lit "a.mp3"; item_type := Py.lit "file";
                item_path := Py.lit "a.mp3";
                item_download_url := Py.lit "https://example.com/a.mp3" |}
             eq_refl eq_refl eq_refl).
  split; reflexivity.
Defined.

(** X6. A selected row with no element of the listing behind it makes
    [select_item] raise [IndexError]; the world is left as it was. *)
Theorem select_item_out_of_range
    (items : list item) (w : world) (idx : nat) (rest : list nat) :
  curselection w = idx :: rest ->
  truthy (current_path w) && (idx =? 0)%nat = false ->
  (length items <= (if negb (truthy (current_path w)) then idx else idx - 1))%nat ->
  select_item items w = (Raise IndexError, w).
Proof.
  intros Hsel Hback Hlen. unfold select_item, bind, get. cbv beta iota.
  rewrite Hsel, Hback. unfold list_index.
  rewrite (lookup_ge_None_2 items _ Hlen). reflexivity.
Qed.

Lemma select_item_out_of_range_witness :
  curselection (click 2 world_listing) = [2%nat]
  /\ (length sample_items <= 2)%nat
  /\ select_item sample_items (click 2 world_listing)
     = (Raise IndexError, click 2 world_listing).
Proof.
  split; [reflexivity|]. split; [simpl; lia|].
  apply (select_item_out_of_range sample_items (click 2 world_listing) 2 []);
    [reflexivity | reflexivity | simpl; lia].
Defined.

(** X7. Whatever is selected and whatever the listing holds, [select_item]
    writes no file, draws no random number and leaves the title, author,
    description and tags entries as they were. *)
Theorem select_item_frame (items : list item) (w : world) :
  untouched_by_browsing w (snd (select_item items w)).
Proof.
  unfold select_item, bind, get. cbv beta iota.
  destruct (curselection w) as [|idx rest]; [constructor; reflexivity|].
  destruct (truthy (current_path w) && (idx =? 0)%nat).
  { rewrite load_repo_closed_form. constructor; reflexivity. }
  unfold list_index.
  destruct (items !! (if negb (truthy (current_path w)) then idx
                      else idx - 1)%nat) as [it|];
    [|constructor; reflexivity].
  unfold ret. cbv beta iota.
  destruct (Py.eqb (item_type it) (Py.lit "dir")).
  { rewrite load_repo_closed_form. constructor; reflexivity. }
  destruct (Py.eqb (item_type it) (Py.lit "file"));
    [|constructor; reflexivity].
  destruct (Py.endswith_any (item_name it) audio_suffixes);
    constructor; reflexivity.
Qed.

(** X8. Selecting the "[..]" row moves the current path to the folder
    above: from a path [p/seg] to [p], from a top-level folder to the root;
    the slashes inside [p] are kept as they are, and the answer of the
    listing service plays no part in it. *)
Theorem select_item_back (items : list item) (w : world) (rest : list nat) :
  curselection w = 0%nat :: rest ->
  truthy (current_path w) = true ->
  (forall p seg, current_path w = p ++ 0x2F :: seg -> 0x2F ∉ seg ->
     current_path (snd (select_item items w)) = p)
  /\ (0x2F ∉ current_path w ->
      current_path (snd (select_item items w)) = []).
Proof.
  intros Hsel Hcur.
  rewrite (select_item_back_row items w rest Hsel Hcur).
  rewrite load_repo_closed_form. cbn [snd].
  cbn [current_path set_listbox_select set_files_listbox set_repo_label
       set_current_path].
  split.
  - intros p seg Hp Hseg. rewrite Hp. apply parent_of_child, Hseg.
  - intros Htop. apply parent_of_top, Htop.
Qed.

Lemma select_item_back_witness :
  current_path (click 0 (set_current_path (Py.lit "sounds/animals/ducks")
                           world_listing))
  = Py.lit "sounds/animals" ++ 0x2F :: Py.lit "ducks"
  /\ current_path
       (snd (select_item sample_items
               (click 0 (set_current_path (Py.lit "sounds/animals/ducks")
                           world_listing))))
     = Py.lit "sounds/animals"
  /\ current_path
       (snd (select_item sample_items
               (click 0 (set_current_path (Py.lit "sounds") world_listing))))
     = [].
Proof.
  split; [reflexivity|]. split.
  - destruct (select_item_back sample_items
                (click 0 (set_current_path (Py.lit "sounds/animals/ducks")
                            world_listing)) [] eq_refl eq_refl)
      as (Hchild & _).
    apply (Hchild (Py.lit "sounds/animals") (Py.lit "ducks"));
      [reflexivity | compute_done].
  - destruct (select_item_back sample_items
                (click 0 (set_current_path (Py.lit "sounds") world_listing))
                [] eq_refl eq_refl)
      as (_ & Htop).
    apply Htop. compute_done.
Defined.

(** X9. Entering a folder and then selecting its "[..]" row comes back to
    the folder one started from, provided the listing gives the folder the
    path [current/name] (or [name] at the root) with a name free of
    slashes, as the listing service does. *)
Theorem enter_then_back
    (items : list item) (w : world) (it : item) (name : Py.str) :
  selected_item items w = Some it ->
  item_type it = Py.lit "dir" ->
  name <> [] ->
  0x2F ∉ name ->
  item_path it
  = (if truthy (current_path w) then current_path w ++ 0x2F :: name
     else name) ->
  current_path (snd (select_item items w)) = item_path it
  /\ current_path
       (snd (on_listbox_select (click 0 (snd (select_item items w)))))
     = current_path w.
Proof.
  intros Hsel Htype Hname Hslash Hpath.
  pose proof (select_item_cases items w) as Hcases.
  rewrite Hsel, Htype in Hcases.
  change (Py.eqb (Py.lit "dir") (Py.lit "dir")) with true in Hcases.
  cbv iota in Hcases. rewrite Hcases, load_repo_closed_form. cbn [snd].
  split; [reflexivity|].
  unfold on_listbox_select, bind, get, click. cbv beta iota.
  cbn [listbox_select set_listbox_select set_files_listbox].
  assert (Htruthy : truthy (item_path it) = true).
  { rewrite Hpath. destruct (current_path w) as [|c cur]; simpl.
    - destruct name; [congruence | reflexivity].
    - reflexivity. }
  erewrite select_item_back_row; [| reflexivity | exact Htruthy].
  rewrite load_repo_closed_form. cbn [snd].
  cbn [current_path set_listbox_select set_files_listbox set_repo_label
       set_current_path].
  rewrite Hpath. destruct (truthy (current_path w)) eqn:Hcur.
  - apply parent_of_child, Hslash.
  - rewrite (parent_of_top name Hslash). symmetry.
    apply truthy_false, Hcur.
Qed.

Lemma enter_then_back_witness :
  selected_item [sample_folder] world_in_sounds = Some sample_folder
  /\ current_path (snd (select_item [sample_folder] world_in_sounds))
     = Py.lit "sounds/ducks"
  /\ current_path
       (snd (on_listbox_select
               (click 0 (snd (select_item [sample_folder] world_in_sounds)))))
     = Py.lit "sounds".
Proof.
  split; [reflexivity|].
  apply (enter_then_back [sample_folder] world_in_sounds sample_folder
           (Py.lit "ducks"));
    [reflexivity | reflexivity | discriminate | compute_done | reflexivity].
Defined.

(** ** Generating a file *)

Section GenerateFile.

Lemma generate_file_valid_run (w : world) (d : descriptor) :
  validate_entries w = Valid d ->
  open_denied w (next_filename w) = false ->
  utf8_encodable (encode d) = true ->
  generate_file w
  = (Ok tt,
     set_dialogs
       (dialogs w
        ++ [showinfo (Py.lit "Success")
              (Py.lit "Saved as " ++ next_filename w)])
       (set_files (<[next_filename w := encode d]> (files w))
          (set_random_pos (S (random_pos w)) w))).
Proof.
  intros Hv Hden Henc.
  rewrite generate_file_codec, Hv. unfold bind.
  rewrite save_keyclsound_closed_form. cbv zeta.
  rewrite Hden, Henc. reflexivity.
Qed.

End GenerateFile.

(** X10. When the entries are valid, the write is permitted and the text can
    be encoded, [generate_file] draws one random number, puts the encoded
    descriptor in the file of the generated name and shows one dialog,
    "Saved as" followed by that name; the entries keep their texts. *)
Theorem generate_file_saves (w : world) (d : descriptor) :
  validate_entries w = Valid d ->
  open_denied w (next_filename w) = false ->
  utf8_encodable (encode d) = true ->
  generate_file w
  = (Ok tt,
     set_dialogs
       (dialogs w
        ++ [showinfo (Py.lit "Success")
              (Py.lit "Saved as " ++ next_filename w)])
       (set_files (<[next_filename w := encode d]> (files w))
          (set_random_pos (S (random_pos w)) w)))
  /\ files (snd (generate_file w)) !! next_filename w = Some (encode d).
Proof.
  intros Hv Hden Henc.
  pose proof (generate_file_valid_run w d Hv Hden Henc) as Hrun.
  split; [exact Hrun|].
  rewrite Hrun. cbn [snd files set_dialogs set_files].
  apply lookup_insert_eq.
Qed.

Lemma generate_file_saves_witness :
  validate_entries world_filled
  = Valid {| title := Py.lit "Quork"; author := Py.lit "MyInstants";
             description := []; tags := Py.lit "duck";
             url := Py.lit "https://example.com/cannard.mp3" |}
  /\ files (snd (generate_file world_filled)) !! Py.lit "10000000.keyclsound"
     = Some (encode {| title := Py.lit "Quork"; author := Py.lit "MyInstants";
                       description := []; tags := Py.lit "duck";
                       url := Py.lit "https://example.com/cannard.mp3" |}).
Proof.
  split; [reflexivity|].
  apply (generate_file_saves world_filled
           {| title := Py.lit "Quork"; author := Py.lit "MyInstants";
              description := []; tags := Py.lit "duck";
              url := Py.lit "https://example.com/cannard.mp3" |});
    reflexivity.
Defined.

(** X11. When the entries are valid but the system denies the write,
    [generate_file] raises [OSError] to its caller: no file changes and no
    dialog is shown, neither an error nor the success message. *)
Theorem generate_file_denied (w : world) (d : descriptor) :
  validate_entries w = Valid d ->
  open_denied w (next_filename w) = true ->
  fst (generate_file w) = Raise OSError
  /\ files (snd (generate_file w)) = files w
  /\ dialogs (snd (generate_file w)) = dialogs w.
Proof.
  intros Hv Hden. rewrite generate_file_codec, Hv. unfold bind.
  rewrite save_keyclsound_closed_form. cbv zeta. rewrite Hden.
  repeat split.
Qed.

Lemma generate_file_denied_witness :
  open_denied world_denied (next_filename world_denied) = true
  /\ fst (generate_file world_denied) = Raise OSError
  /\ dialogs (snd (generate_file world_denied)) = [].
Proof.
  split; [reflexivity|].
  destruct (generate_file_denied world_denied
              {| title := Py.lit "Untitled Song"; author := Py.lit "A";
                 description := []; tags := Py.lit "t";
                 url := Py.lit "x.ogg" |} eq_refl eq_refl)
    as (Hraise & _ & Hdialogs).
  split; [exact Hraise | exact Hdialogs].
Defined.

(** X12. [generate_file] does not clear the entries: a second call right
    after a successful one validates to the same descriptor and, when it
    draws a different name, leaves two files with the same text. *)
Theorem generate_file_twice (w : world) (d : descriptor) :
  validate_entries w = Valid d ->
  utf8_encodable (encode d) = true ->
  open_denied w (next_filename w) = false ->
  open_denied w (next_filename (snd (generate_file w))) = false ->
  next_filename (snd (generate_file w)) <> next_filename w ->
  validate_entries (snd (generate_file w)) = Valid d
  /\ fst (generate_file (snd (generate_file w))) = Ok tt
  /\ files (snd (generate_file (snd (generate_file w)))) !! next_filename w
     = Some (encode d)
  /\ files (snd (generate_file (snd (generate_file w))))
       !! next_filename (snd (generate_file w))
     = Some (encode d)
  /\ length (dialogs (snd (generate_file (snd (generate_file w)))))
     = (length (dialogs w) + 2)%nat.
Proof.
  intros Hv Henc Hden1.
  rewrite (generate_file_valid_run w d Hv Hden1 Henc). cbn [snd].
  set (w1 := set_dialogs _ _).
  intros Hden2 Hne.
  assert (Hv1 : validate_entries w1 = Valid d) by exact Hv.
  split; [exact Hv1|].
  rewrite (generate_file_valid_run w1 d Hv1 Hden2 Henc). cbn [fst snd].
  split; [reflexivity|].
  cbn [files set_dialogs set_files set_random_pos dialogs].
  split; [|split].
  - rewrite lookup_insert_ne by exact Hne.
    subst w1. cbn [files set_dialogs set_files]. apply lookup_insert_eq.
  - apply lookup_insert_eq.
  - subst w1. cbn [dialogs set_dialogs set_files set_random_pos].
    rewrite !length_app. simpl. lia.
Qed.

Lemma generate_file_twice_witness :
  next_filename world_filled = Py.lit "10000000.keyclsound"
  /\ next_filename (snd (generate_file world_filled))
     = Py.lit "10000001.keyclsound"
  /\ files (snd (generate_file (snd (generate_file world_filled))))
       !! Py.lit "10000000.keyclsound"
     = files (snd (generate_file (snd (generate_file world_filled))))
         !! Py.lit "10000001.keyclsound"
  /\ length (dialogs (snd (generate_file (snd (generate_file world_filled)))))
     = 2%nat.
Proof.
  split; [reflexivity|]. split; [reflexivity|].
  destruct (generate_file_twice world_filled
              {| title := Py.lit "Quork"; author := Py.lit "MyInstants";
                 description := []; tags := Py.lit "duck";
                 url := Py.lit "https://example.com/cannard.mp3" |}
              eq_refl eq_refl eq_refl eq_refl)
    as (_ & _ & Hfirst & Hsecond & Hdialogs).
  - intros H. vm_compute in H. discriminate H.
  - split; [|exact Hdialogs].
    etransitivity; [exact Hfirst | symmetry; exact Hsecond].
Defined.

(** X13. After a sound has been selected in the browser, [generate_file]
    validates the download URL of that sound, whatever the manual entry held
    before; a descriptor it accepts has that URL, trimmed, as its url. *)
Theorem select_then_generate (items : list item) (w : world) (it : item) :
  selected_item items w = Some it ->
  item_type it = Py.lit "file" ->
  Py.endswith_any (item_name it) audio_suffixes = true ->
  validate_entries (snd (select_item items w))
  = validate (title_entry w) (author_entry w) (desc_entry w) (tags_entry w)
      (item_download_url it)
  /\ (forall d, validate_entries (snd (select_item items w)) = Valid d ->
                url d = Py.strip (item_download_url it)).
Proof.
  intros Hsel Htype Hends.
  assert (Heq : validate_entries (snd (select_item items w))
                = validate (title_entry w) (author_entry w) (desc_entry w)
                    (tags_entry w) (item_download_url it)).
  { revert Hsel. unfold selected_item, select_item, bind, get.
    cbv beta iota.
    destruct (curselection w) as [|idx rest]; [discriminate|].
    destruct (truthy (current_path w) && (idx =? 0)%nat); [discriminate|].
    unfold list_index. intros ->.
    unfold ret. cbv beta iota. rewrite Htype, Hends.
    change (Py.eqb (Py.lit "file") (Py.lit "dir")) with false.
    change (Py.eqb (Py.lit "file") (Py.lit "file")) with true.
    cbv iota. unfold modify, validate_entries.
    cbn [snd selected_url manual_url_entry title_entry author_entry
         desc_entry tags_entry set_manual_url_entry set_selected_url].
    rewrite app_nil_r. reflexivity. }
  split; [exact Heq|].
  intros d Hv. rewrite Heq in Hv.
  destruct (validate_cases (title_entry w) (author_entry w) (desc_entry w)
              (tags_entry w) (item_download_url it))
    as [[_ [m Hm]] | [_ Hv']]; [congruence|].
  rewrite Hv' in Hv. injection Hv as <-. reflexivity.
Qed.

Lemma select_then_generate_witness :
  selected_item sample_items (click 1 world_author) = sample_items !! 1%nat
  /\ validate_entries (click 1 world_author)
     = ValidationError "URL must end with .mp3, .wav, or .ogg"
  /\ validate_entries (snd (select_item sample_items (click 1 world_author)))
     = Valid {| title := Py.lit "Untitled Song"; author := Py.lit "A";
                description := []; tags := Py.lit "t";
                url := Py.lit "https://example.com/a.mp3" |}
  /\ url {| title := Py.lit "Untitled Song"; author := Py.lit "A";
            description := []; tags := Py.lit "t";
            url := Py.lit "https://example.com/a.mp3" |}
     = Py.strip (Py.lit "https://example.com/a.mp3").
Proof.
  split; [reflexivity|]. split; [reflexivity|].
  destruct (select_then_generate sample_items (click 1 world_author)
              {| item_name := Py.lit "a.mp3"; item_type := Py.lit "file";
                 item_path := Py.lit "a.mp3";
                 item_download_url := Py.lit "https://example.com/a.mp3" |}
              eq_refl eq_refl eq_refl) as (Hentries & Hurl).
  assert (Hvalid :
            validate_entries
              (snd (select_item sample_items (click 1 world_author)))
            = Valid {| title := Py.lit "Untitled Song"; author := Py.lit "A";
                       description := []; tags := Py.lit "t";
                       url := Py.lit "https://example.com/a.mp3" |})
    by (rewrite Hentries; reflexivity).
  split; [exact Hvalid|].
  exact (Hurl _ Hvalid).
Defined.

(** ** More on validation *)

(** X14. What [validate] returns is in normal form: every field is trimmed,
    the descriptor is well-formed with a title that is not blank, and
    validating its own five fields returns it unchanged. *)
Theorem validate_normal_form (t a d g u : Py.str) (desc : descriptor) :
  validate t a d g u = Valid desc ->
  well_formed desc
  /\ Py.strip (title desc) = title desc
  /\ Py.strip (author desc) = author desc
  /\ Py.strip (description desc) = description desc
  /\ Py.strip (tags desc) = tags desc
  /\ Py.strip (url desc) = url desc
  /\ validate (title desc) (author desc) (description desc) (tags desc)
       (url desc) = Valid desc.
Proof.
  intros Hv. pose proof (validate_well_formed _ _ _ _ _ _ Hv) as Hwf.
  split; [exact Hwf|].
  destruct (validate_cases t a d g u) as [[_ [m Hm]] | [_ Hv']];
    [congruence|].
  rewrite Hv' in Hv. injection Hv as <-. cbn [title author description tags url].
  assert (Htitle : Py.strip (py_or (Py.strip t) (Py.lit "Untitled Song"))
                   = py_or (Py.strip t) (Py.lit "Untitled Song")).
  { unfold py_or. destruct (truthy (Py.strip t));
      [apply strip_idempotent | reflexivity]. }
  split; [exact Htitle|].
  do 4 (split; [apply strip_idempotent|]).
  destruct Hwf as (Wt & Wa & Wg & Wu & We).
  cbn [title author description tags url] in *.
  unfold validate, blank in *.
  rewrite !strip_idempotent, Htitle in *.
  apply negb_false_iff in Wt, Wa, Wg, Wu.
  rewrite Wa, Wg, Wu, We. cbn [negb orb].
  unfold py_or at 1. rewrite Wt. reflexivity.
Qed.

Lemma validate_normal_form_witness :
  validate (Py.lit "  ") (Py.lit " A ") (Py.lit " d") (Py.lit "t ")
    (Py.lit " x.wav ")
  = Valid {| title := Py.lit "Untitled Song"; author := Py.lit "A";
             description := Py.lit "d"; tags := Py.lit "t";
             url := Py.lit "x.wav" |}
  /\ validate (Py.lit "Untitled Song") (Py.lit "A") (Py.lit "d") (Py.lit "t")
       (Py.lit "x.wav")
     = Valid {| title := Py.lit "Untitled Song"; author := Py.lit "A";
                description := Py.lit "d"; tags := Py.lit "t";
                url := Py.lit "x.wav" |}.
Proof.
  split; [reflexivity|].
  apply (validate_normal_form (Py.lit "  ") (Py.lit " A ") (Py.lit " d")
           (Py.lit "t ") (Py.lit " x.wav ")
           {| title := Py.lit "Untitled Song"; author := Py.lit "A";
              description := Py.lit "d"; tags := Py.lit "t";
              url := Py.lit "x.wav" |} eq_refl).
Defined.

(** X15. White space around the texts of the entries never matters:
    validating the trimmed texts gives the same answer, the same error or
    the same descriptor. *)
Theorem validate_ignores_padding (t a d g u : Py.str) :
  validate (Py.strip t) (Py.strip a) (Py.strip d) (Py.strip g) (Py.strip u)
  = validate t a d g u.
Proof. unfold validate. rewrite !strip_idempotent. reflexivity. Qed.

(** X16. The two error messages do not overlap and the first check wins:
    a blank author, tags or url is reported as a missing field, also when
    the url has a wrong suffix; the suffix message appears only when the
    three fields are present. *)
Theorem validate_messages (t a d g u : Py.str) (message : string) :
  validate t a d g u = ValidationError message ->
  (message = "Author, Tags, and URL are required!"%string
   /\ (blank a = true \/ blank g = true \/ blank u = true))
  \/ (message = "URL must end with .mp3, .wav, or .ogg"%string
      /\ blank a = false /\ blank g = false /\ blank u = false
      /\ Py.endswith_any (Py.strip u) audio_suffixes = false).
Proof.
  unfold validate, blank.
  destruct (truthy (Py.strip a)); cbn [negb orb];
    [|intros [= <-]; left; split; [reflexivity | tauto]].
  destruct (truthy (Py.strip g)); cbn [negb orb];
    [|intros [= <-]; left; split; [reflexivity | tauto]].
  destruct (truthy (Py.strip u)); cbn [negb orb];
    [|intros [= <-]; left; split; [reflexivity | tauto]].
  destruct (Py.endswith_any (Py.strip u) audio_suffixes); cbn [negb].
  - discriminate.
  - intros [= <-]. right. repeat split.
Qed.

Lemma validate_messages_witness :
  validate [] [] [] (Py.lit "t") (Py.lit "song.flac")
  = ValidationError "Author, Tags, and URL are required!"
  /\ blank [] = true.
Proof.
  split; [reflexivity|].
  destruct (validate_messages [] [] [] (Py.lit "t") (Py.lit "song.flac")
              "Author, Tags, and URL are required!" eq_refl)
    as [[_ Hblank] | [Hmsg _]].
  - reflexivity.
  - discriminate Hmsg.
Defined.

(** ** More on encoding *)

Section EncodeFacts.

Lemma split_encode (d : descriptor) :
  single_line_fields d ->
  Py.split Py.NL (encode d)
  = [ Py.lit "title: " ++ title d;
      Py.lit "author: " ++ author d;
      Py.lit "description: " ++ description d;
      Py.lit "tags: " ++ tags d;
      Py.lit "url: " ++ url d;
      [] ].
Proof.
  intros (Ht & Ha & Hd & Hg & Hu).
  destruct no_line_break_keys as (Kt & Ka & Kd & Kg & Ku).
  rewrite encode_lines.
  rewrite !split_first_line by (apply no_line_break_app; assumption).
  reflexivity.
Qed.

End EncodeFacts.

(** X17. On descriptors whose fields hold one line each, [encode] loses
    nothing: two of them with the same text are the same descriptor. *)
Theorem encode_injective_single_line (d1 d2 : descriptor) :
  single_line_fields d1 ->
  single_line_fields d2 ->
  encode d1 = encode d2 ->
  d1 = d2.
Proof.
  intros H1 H2 Heq.
  apply (f_equal (Py.split Py.NL)) in Heq.
  rewrite (split_encode d1 H1), (split_encode d2 H2) in Heq.
  injection Heq as Ht Ha Hd Hg Hu.
  destruct d1, d2; cbn [title author description tags url] in *.
  congruence.
Qed.

Lemma encode_injective_single_line_witness :
  single_line_fields quork
  /\ encode quork = encode quork
  /\ quork = quork.
Proof.
  assert (H : single_line_fields quork)
    by (unfold single_line_fields, no_line_break; repeat split; compute_done).
  split; [exact H|]. split; [reflexivity|].
  exact (encode_injective_single_line quork quork H H eq_refl).
Defined.

(** ** More on file names *)

Section FilenameFacts.

Lemma digits_value_snoc (ds : list N) (c : N) :
  digits_value (ds ++ [c]) = 10 * digits_value ds + (c - 48).
Proof. unfold digits_value. rewrite fold_left_app. reflexivity. Qed.

(** The digits [dec_digits] writes read back as the number. *)
Lemma dec_digits_value (fuel : nat) :
  forall (n : N) (acc : Py.str),
    n < 10 ^ N.of_nat fuel ->
    exists ds, Py.dec_digits fuel n acc = ds ++ acc /\ digits_value ds = n.
Proof.
  induction fuel as [|fuel IH]; intros n acc Hn.
  - change (10 ^ N.of_nat 0) with 1 in Hn.
    exists []. split; [reflexivity|]. unfold digits_value. simpl. lia.
  - rewrite Nat2N.inj_succ, N.pow_succ_r' in Hn.
    pose proof (N.div_mod n 10 ltac:(discriminate)) as Hdm.
    cbn [Py.dec_digits]. cbv zeta.
    destruct (N.eqb_spec (n / 10) 0) as [Hz | Hnz].
    + exists [48 + n mod 10]. split; [reflexivity|].
      unfold digits_value. cbn [fold_left].
      rewrite Hz in Hdm. generalize dependent (n mod 10). intros; lia.
    + destruct (IH (n / 10) ((48 + n mod 10) :: acc)) as (ds & Heq & Hval).
      { apply N.Div0.div_lt_upper_bound. exact Hn. }
      exists (ds ++ [48 + n mod 10]). split.
      * rewrite Heq, <- app_assoc. reflexivity.
      * rewrite digits_value_snoc, Hval.
        generalize dependent (n mod 10). generalize dependent (n / 10).
        intros; lia.
Qed.

Lemma str_N_value (n : N) : digits_value (Py.str_N n) = n.
Proof.
  unfold Py.str_N.
  destruct (dec_digits_value (S (N.size_nat n)) n []) as (ds & Heq & Hval).
  - rewrite Nat2N.inj_succ, N.pow_succ_r'.
    destruct n as [|p]; [reflexivity|].
    pose proof (pos_below_pow_size p) as Hp.
    assert (Hle : 2 ^ N.of_nat (Pos.size_nat p) <= 10 ^ N.of_nat (Pos.size_nat p))
      by (apply N.pow_le_mono_l; lia).
    cbn [N.size_nat].
    generalize dependent (2 ^ N.of_nat (Pos.size_nat p)).
    generalize dependent (10 ^ N.of_nat (Pos.size_nat p)).
    intros; lia.
  - rewrite Heq, app_nil_r. exact Hval.
Qed.

Lemma str_int_value (r : Z) :
  (0 <= r)%Z -> digits_value (Py.str_int r) = Z.to_N r.
Proof.
  intros Hr. destruct r as [|p|p]; [| |lia].
  - reflexivity.
  - unfold Py.str_int. rewrite str_N_value. reflexivity.
Qed.

End FilenameFacts.

(** X18. The file name tells the number drawn: its digits read back as that
    number, so two calls of [generate_random_filename] return the same name
    exactly when they draw the same number of the range. *)
Theorem generate_random_filename_collision (w1 w2 : world) :
  (exists r, (10000000 <= r <= 99999999)%Z
             /\ fst (generate_random_filename w1)
                = Ok (Py.str_int r ++ Py.lit ".keyclsound")
             /\ digits_value (Py.str_int r) = Z.to_N r)
  /\ (fst (generate_random_filename w1) = fst (generate_random_filename w2)
      <-> (random_source w1 (random_pos w1) mod 90000000
           = random_source w2 (random_pos w2) mod 90000000)%Z).
Proof.
  rewrite !generate_random_filename_next. cbn [fst]. unfold next_filename.
  pose proof (Z.mod_pos_bound (random_source w1 (random_pos w1)) 90000000
                ltac:(lia)) as H1.
  pose proof (Z.mod_pos_bound (random_source w2 (random_pos w2)) 90000000
                ltac:(lia)) as H2.
  generalize dependent (random_source w1 (random_pos w1) mod 90000000)%Z.
  generalize dependent (random_source w2 (random_pos w2) mod 90000000)%Z.
  intros m2 H2 m1 H1. split.
  - exists (10000000 + m1)%Z. split; [lia|]. split; [reflexivity|].
    apply str_int_value. lia.
  - split.
    + intros Heq. injection Heq as Heq. apply app_inv_tail in Heq.
      apply (f_equal digits_value) in Heq.
      rewrite !str_int_value in Heq by lia. lia.
    + intros ->. reflexivity.
Qed.

(** ** More on saving *)

(** X19. When the text cannot be encoded in UTF-8 (it holds a surrogate code
    point), [save_keyclsound] raises [UnicodeEncodeError] after the file was
    opened: the file of the generated name is left empty, whatever it held
    before, and no other file changes. *)
Theorem save_keyclsound_unencodable (data : Py.str) (w : world) :
  open_denied w (next_filename w) = false ->
  utf8_encodable data = false ->
  fst (save_keyclsound data w) = Raise UnicodeEncodeError
  /\ files (snd (save_keyclsound data w)) !! next_filename w = Some []
  /\ (forall other, other <> next_filename w ->
      files (snd (save_keyclsound data w)) !! other = files w !! other).
Proof.
  intros Hden Henc. rewrite save_keyclsound_closed_form. cbv zeta.
  rewrite Hden, Henc. cbn [fst snd files set_files set_random_pos].
  split; [reflexivity|].
  split; [apply lookup_insert_eq|].
  intros other Hne. apply lookup_insert_ne. congruence.
Qed.

Lemma save_keyclsound_unencodable_witness :
  files world_taken !! next_filename world_taken = Some (Py.lit "old")
  /\ utf8_encodable [0xD800] = false
  /\ fst (save_keyclsound [0xD800] world_taken) = Raise UnicodeEncodeError
  /\ files (snd (save_keyclsound [0xD800] world_taken))
       !! next_filename world_taken = Some [].
Proof.
  split; [reflexivity|]. split; [reflexivity|].
  destruct (save_keyclsound_unencodable [0xD800] world_taken eq_refl eq_refl)
    as (Hraise & Hempty & _).
  split; [exact Hraise | exact Hempty].
Defined.

(** ** The preview *)

Section PreviewFacts.

Variable response_content : Py.str -> list N.
Variable tempfile_write : Py.str -> list N -> M Py.str.
Variable music_load : Py.str -> M unit.
Variable music_play : M unit.
Variable exn_str : exn -> Py.str.

(** The last piece of a text cut at its dots is what follows the last dot. *)
Lemma last_piece_after_dot (s e : list N) :
  0x2E ∉ e -> (0x2E :: e) `suffix_of` s ->
  last_piece (Py.split 0x2E s) = e.
Proof.
  intros He [k ->]. unfold last_piece.
  rewrite (split_last_piece _ k e He). apply last_last.
Qed.

Lemma audio_suffix_after_dot (s : Py.str) :
  Py.endswith_any s audio_suffixes = true ->
  exists suffix,
    suffix ∈ audio_suffixes /\ suffix `suffix_of` s
    /\ Py.lit "." ++ last_piece (Py.split 0x2E s) = suffix.
Proof.
  intros Hends. apply endswith_any_spec in Hends.
  destruct Hends as (suffix & Hin & Hsuf).
  exists suffix. split; [exact Hin|]. split; [exact Hsuf|].
  apply list_elem_of_In in Hin. simpl in Hin.
  destruct Hin as [<- | [<- | [<- | []]]].
  - rewrite (last_piece_after_dot s (Py.lit "mp3"));
      [reflexivity | compute_done | exact Hsuf].
  - rewrite (last_piece_after_dot s (Py.lit "wav"));
      [reflexivity | compute_done | exact Hsuf].
  - rewrite (last_piece_after_dot s (Py.lit "ogg"));
      [reflexivity | compute_done | exact Hsuf].
Qed.

(** X20. When the trimmed text of the manual URL entry ends with none of
    the three audio suffixes, [preview_sound] shows one error dialog and
    leaves everything else in the world as it was, whatever the temporary
    directory and the mixer would do: neither of them is used. *)
Theorem preview_sound_rejects (w : world) :
  Py.endswith_any (Py.strip (manual_url_entry w)) audio_suffixes = false ->
  preview_sound response_content tempfile_write music_load music_play exn_str w
  = (Ok tt,
     set_dialogs
       (dialogs w
        ++ [showerror (Py.lit "Error")
              (Py.lit "Please select a valid sound file to preview.")]) w).
Proof.
  intros Hends. unfold preview_sound, bind, get. cbv beta iota.
  rewrite Hends. reflexivity.
Qed.


(** X22. When the URL passes the suffix check and the response has status
    200, the body goes to a temporary file whose suffix is the very audio
    suffix the URL ends with; the file is then loaded and played, and an
    exception of any of the three steps becomes the "Preview failed"
    dialog. *)
Theorem preview_sound_tempfile_suffix (w : world) (json : option (list item)) :
  Py.endswith_any (Py.strip (manual_url_entry w)) audio_suffixes = true ->
  requests_get w (Py.strip (manual_url_entry w)) = HttpResponse 200 json ->
  exists suffix,
    suffix ∈ audio_suffixes
    /\ suffix `suffix_of` Py.strip (manual_url_entry w)
    /\ preview_sound response_content tempfile_write music_load music_play
         exn_str w
       = try_except_as
           (do tmpfile_name <- tempfile_write suffix
                                 (response_content
                                    (Py.strip (manual_url_entry w)));
            music_load tmpfile_name ;;
            music_play)
           (preview_failed exn_str) w.
Proof.
  intros Hends Hget.
  destruct (audio_suffix_after_dot _ Hends) as (suffix & Hin & Hsuf & Hext).
  exists suffix. split; [exact Hin|]. split; [exact Hsuf|].
  unfold preview_sound, bind at 1. unfold get at 1. cbv beta iota.
  rewrite Hends. cbn [negb]. unfold try_except_as.
  unfold bind at 1. unfold http_get. rewrite Hget. cbn [fst].
  cbv zeta. rewrite Hext. reflexivity.
Qed.

(** X23. When the URL passes the suffix check but the download fails,
    [preview_sound] shows one dialog and touches nothing else: "Failed to
    download sound." for a status other than 200, "Preview failed:" with the
    text of the exception when the request raises. *)
Theorem preview_sound_download_failed (w : world) :
  Py.endswith_any (Py.strip (manual_url_entry w)) audio_suffixes = true ->
  (forall status json,
     requests_get w (Py.strip (manual_url_entry w))
     = HttpResponse status json ->
     status <> 200%Z ->
     preview_sound response_content tempfile_write music_load music_play
       exn_str w
     = (Ok tt,
        set_dialogs
          (dialogs w
           ++ [showerror (Py.lit "Error")
                 (Py.lit "Failed to download sound.")]) w))
  /\ (forall e,
       requests_get w (Py.strip (manual_url_entry w)) = HttpRaises e ->
       preview_sound response_content tempfile_write music_load music_play
         exn_str w
       = (Ok tt,
          set_dialogs
            (dialogs w
             ++ [showerror (Py.lit "Error")
                   (Py.lit "Preview failed: " ++ exn_str e)]) w)).
Proof.
  intros Hends. split.
  - intros status json Hget Hne.
    unfold preview_sound, bind at 1. unfold get at 1. cbv beta iota.
    rewrite Hends. cbn [negb]. unfold try_except_as.
    unfold bind at 1. unfold http_get. rewrite Hget. cbn [fst].
    destruct (Z.eqb_spec status 200) as [Heq | _]; [contradiction|].
    reflexivity.
  - intros e Hget.
    unfold preview_sound, bind at 1. unfold get at 1. cbv beta iota.
    rewrite Hends. cbn [negb]. unfold try_except_as.
    unfold bind at 1. unfold http_get. rewrite Hget. reflexivity.
Qed.

End PreviewFacts.

Lemma preview_sound_rejects_witness :
  Py.endswith_any (Py.strip (manual_url_entry world0)) audio_suffixes = false
  /\ dialogs
       (snd (preview_sound sample_content sample_tempfile sample_load
               sample_play sample_exn_str world0))
     = [showerror (Py.lit "Error")
          (Py.lit "Please select a valid sound file to preview.")].
Proof.
  split; [reflexivity|].
  rewrite (preview_sound_rejects sample_content sample_tempfile sample_load
             sample_play sample_exn_str world0 eq_refl).
  reflexivity.
Defined.

Lemma preview_sound_tempfile_suffix_witness :
  requests_get world_sound (Py.strip (manual_url_entry world_sound))
  = HttpResponse 200 None
  /\ exists suffix,
       suffix ∈ audio_suffixes
       /\ suffix `suffix_of` Py.lit "https://example.com/a.mp3"
       /\ preview_sound sample_content sample_tempfile sample_load
            sample_play sample_exn_str world_sound
          = try_except_as
              (do tmpfile_name <- sample_tempfile suffix [];
               sample_load tmpfile_name ;;
               sample_play)
              (preview_failed sample_exn_str) world_sound.
Proof.
  split; [reflexivity|].
  exact (preview_sound_tempfile_suffix sample_content sample_tempfile
           sample_load sample_play sample_exn_str world_sound None
           eq_refl eq_refl).
Defined.

Lemma preview_sound_download_failed_witness :
  Py.endswith_any (Py.strip (manual_url_entry world_filled)) audio_suffixes
  = true
  /\ dialogs
       (snd (preview_sound sample_content sample_tempfile sample_load
               sample_play sample_exn_str world_filled))
     = [showerror (Py.lit "Error") (Py.lit "Failed to download sound.")]
  /\ dialogs
       (snd (preview_sound sample_content sample_tempfile sample_load
               sample_play sample_exn_str world_denied))
     = [showerror (Py.lit "Error") (Py.lit "Preview failed: error")].
Proof.
  split; [reflexivity|]. split.
  - rewrite (proj1 (preview_sound_download_failed sample_content
                      sample_tempfile sample_load sample_play sample_exn_str
                      world_filled eq_refl) 404%Z None eq_refl);
      [reflexivity | discriminate].
  - rewrite (proj2 (preview_sound_download_failed sample_content
                      sample_tempfile sample_load sample_play sample_exn_str
                      world_denied eq_refl) RequestException eq_refl).
    reflexivity.
Defined.

(** ** Icons and selection *)

(** X24. The icon of a row tells what selecting the row does: a row with
    the note icon sets the two URL holders to the download URL, a row with
    the folder icon loads the folder of the element, and a row with the page
    icon leaves the URL holders, the path and the list box as they were. *)
Theorem row_icon_tells_selection (items : list item) (w : world) (it : item) :
  selected_item items w = Some it ->
  ((exists rest, row_of it = 0x1F3B5 :: rest) ->
   select_item items w
   = (Ok tt,
      set_manual_url_entry (item_download_url it)
        (set_selected_url (item_download_url it) w)))
  /\ ((exists rest, row_of it = 0x1F4C1 :: rest) ->
      select_item items w = load_repo (item_path it) w)
  /\ ((exists rest, row_of it = 0x1F4C4 :: rest) ->
      same_url w (snd (select_item items w))
      /\ current_path (snd (select_item items w)) = current_path w
      /\ files_listbox (snd (select_item items w)) = files_listbox w).
Proof.
  unfold selected_item, select_item, bind, get, row_of. cbv beta iota.
  destruct (curselection w) as [|idx rest0]; [discriminate|].
  destruct (truthy (current_path w) && (idx =? 0)%nat); [discriminate|].
  unfold list_index. intros ->. unfold ret. cbv beta iota.
  destruct (Py.eqb (item_type it) (Py.lit "dir")).
  { split; [intros [rest Hrow]; discriminate Hrow|].
    split; [reflexivity|]. intros [rest Hrow]. discriminate Hrow. }
  destruct (Py.eqb (item_type it) (Py.lit "file")); cbn [andb].
  - destruct (Py.endswith_any (item_name it) audio_suffixes).
    + split.
      * intros _. unfold modify.
        cbn [selected_url manual_url_entry set_manual_url_entry
             set_selected_url].
        rewrite app_nil_r. reflexivity.
      * split; intros [rest Hrow]; discriminate Hrow.
    + split; [intros [rest Hrow]; discriminate Hrow|].
      split; [intros [rest Hrow]; discriminate Hrow|].
      intros _. repeat split.
  - split; [intros [rest Hrow]; discriminate Hrow|].
    split; [intros [rest Hrow]; discriminate Hrow|].
    intros _. repeat split.
Qed.

Lemma row_icon_tells_selection_witness :
  selected_item sample_items (click 1 world_listing) = sample_items !! 1%nat
  /\ files_listbox world_listing !! 1%nat
     = Some (0x1F3B5 :: 0x20 :: Py.lit "a.mp3")
  /\ selected_url (snd (select_item sample_items (click 1 world_listing)))
     = Py.lit "https://example.com/a.mp3".
Proof.
  split; [reflexivity|]. split; [reflexivity|].
  rewrite (proj1 (row_icon_tells_selection sample_items
                    (click 1 world_listing)
                    {| item_name := Py.lit "a.mp3"; item_type := Py.lit "file";
                       item_path := Py.lit "a.mp3";
                       item_download_url := Py.lit "https://example.com/a.mp3" |}
                    eq_refl)
             (ex_intro _ (0x20 :: Py.lit "a.mp3") eq_refl)).
  reflexivity.
Defined.
